(** * Actor / Critic networks of [model.py]: a shallow embedding

    The module [model.py] defines a helper [hidden_init], two networks
    ([Actor], [Critic]) built from three linear layers and one batch
    normalisation stage, and the container [Actor_Critics].

    Conventions of the embedding
    - a tensor is its size (a list of naturals) together with its elements
      in row-major order, the layout of a contiguous tensor;
    - scalars are real numbers: arithmetic is exact, so rounding, overflow
      and not-a-number values of machine floats are outside the model, and
      no statement below bounds the elements a forward pass returns (a
      float computation that overflows yields not-a-number, which is in
      no interval);
    - Python integers (widths, agent counts, seeds) are [Z];
    - an exception raised by the tensor library is a value [Err e]; nothing
      in [model.py] catches one, so [Err] is what the caller receives (the
      state a failed call leaves behind is not described);
    - the library's global random generator is explicit state, threaded
      through every construction and initialisation;
    - the operations of the tensor library that [model.py] calls
      ([nn.Linear], [nn.BatchNorm1d], [F.relu], [F.tanh], [torch.cat],
      [torch.unsqueeze], [uniform_]) are modelled after the library's
      documented behaviour. *)

From Stdlib Require Import Reals Lra Lia List ZArith Bool Arith.
Import ListNotations.

Open Scope R_scope.

(** ** Errors and results *)

Inductive torch_error : Type :=
| IndexError          (* a dimension index outside the tensor's rank *)
| DimensionMismatch   (* RuntimeError: sizes that do not fit together *)
| ValueError          (* rejected by the normalisation stage's input checks *)
| NegativeDimension   (* RuntimeError: a tensor of negative size requested *)
| OutOfBounds         (* RuntimeError: a sampling bound that is no finite float *)
| SeedOutOfRange.     (* RuntimeError: a seed that does not fit the generator *)

Inductive result (A : Type) : Type :=
| Ok (a : A)
| Err (e : torch_error).

Arguments Ok {A} a.
Arguments Err {A} e.

Definition bind {A B : Type} (r : result A) (k : A -> result B) : result B :=
  match r with
  | Ok a => k a
  | Err e => Err e
  end.

Notation "x <- c ;; k" := (bind c (fun x => k))
  (at level 61, c at next level, right associativity).
Notation "' p <- c ;; k" := (bind c (fun x => match x with p => k end))
  (at level 61, p pattern, c at next level, right associativity).

Definition is_ok {A : Type} (r : result A) : bool :=
  match r with Ok _ => true | Err _ => false end.

(** ** Tensors *)

Record Tensor : Type := mkTensor { size : list nat; data : list R }.

Definition numel (s : list nat) : nat := fold_right Nat.mul 1%nat s.

Definition dim (t : Tensor) : nat := length (size t).

(** A tensor holds exactly as many elements as its size announces. *)
Definition Tensor_wf (t : Tensor) : Prop := length (data t) = numel (size t).

Definition zeros (s : list nat) : Tensor := mkTensor s (repeat 0 (numel s)).
Definition ones (s : list nat) : Tensor := mkTensor s (repeat 1 (numel s)).

(** [torch.unsqueeze(input, dim)]: a new axis of length one at position
    [dim]; the elements are untouched.  [model.py] only uses position 0. *)
Definition unsqueeze (input : Tensor) (d : nat) : Tensor :=
  mkTensor (firstn d (size input) ++ 1%nat :: skipn d (size input)) (data input).

(** [rows n k d] cuts the first [n] consecutive blocks of [k] elements. *)
Fixpoint rows (n k : nat) (d : list R) : list (list R) :=
  match n with
  | O => []
  | S n' => firstn k d :: rows n' k (skipn k d)
  end.

(** Sizes agree everywhere except along axis [d]. *)
Fixpoint same_except (d : nat) (s1 s2 : list nat) : bool :=
  match s1, s2 with
  | [], [] => true
  | a :: s1', b :: s2' =>
      match d with
      | O => if list_eq_dec Nat.eq_dec s1' s2' then true else false
      | S d' => (a =? b)%nat && same_except d' s1' s2'
      end
  | _, _ => false
  end.

(** The one-dimensional empty tensor, which concatenation skips. *)
Definition cat_should_skip (t : Tensor) : bool :=
  match size t with
  | [O] => true
  | _ => false
  end.

Definition cat_size (d : nat) (s1 s2 : list nat) : list nat :=
  firstn d s1 ++ (nth d s1 O + nth d s2 O)%nat :: skipn (S d) s1.

(** [torch.cat((a, b), dim)].  A zero-dimensional tensor cannot be
    concatenated.  A one-dimensional empty tensor (size [(0,)]) is skipped;
    the axis is resolved against the first tensor that is not skipped, and
    the remaining tensors must have the same rank and the same sizes away
    from that axis.  The result interleaves, for every index before the
    axis, the block of [a] and the block of [b]. *)
Definition cat (ts : Tensor * Tensor) (d : nat) : result Tensor :=
  let (a, b) := ts in
  match size a, size b with
  | [], _ | _, [] => Err DimensionMismatch
  | _, _ =>
    match cat_should_skip a, cat_should_skip b with
    | true, true => Ok (mkTensor [O] [])
    | true, false => if (d <? dim b)%nat then Ok b else Err IndexError
    | false, true => if (d <? dim a)%nat then Ok a else Err IndexError
    | false, false =>
        if (d <? dim a)%nat then
          if same_except d (size a) (size b) then
            let outer := numel (firstn d (size a)) in
            let ba := numel (skipn d (size a)) in
            let bb := numel (skipn d (size b)) in
            Ok (mkTensor (cat_size d (size a) (size b))
                  (concat (map (fun p => fst p ++ snd p)
                             (combine (rows outer ba (data a))
                                      (rows outer bb (data b))))))
          else Err DimensionMismatch
        else Err IndexError
    end
  end.

(** [F.relu]: negative values clamp to zero. *)
Definition relu (x : Tensor) : Tensor := mkTensor (size x) (map (Rmax 0) (data x)).

(** [F.tanh], element by element. *)
Definition tanh_ (x : Tensor) : Tensor := mkTensor (size x) (map tanh (data x)).

(** ** The random generator

    The library keeps one global generator.  [manual_seed] gives the state
    an accepted seed resets it to and [random01] draws the next number of
    the unit interval; both are the library's, so they are parameters of
    the development.  [torch_manual_seed] below is the library call
    itself, which refuses a seed out of range. *)

Class RandomSource : Type := {
  Generator : Type;
  manual_seed : Z -> Generator;
  random01 : Generator -> R * Generator
}.

(** Draws lie in the unit interval. *)
Definition unit_draws (RS : RandomSource) : Prop :=
  forall g : Generator, 0 <= fst (random01 g) < 1.

(** A small concrete source (a linear congruential generator on sixteen
    states), used to run the model on examples. *)
Definition lcg_next (g : Z) : R * Z :=
  (IZR (g mod 16) / 16, ((5 * g + 3) mod 16)%Z).

Definition lcg : RandomSource :=
  {| Generator := Z; manual_seed := fun seed => (seed mod 16)%Z; random01 := lcg_next |}.

(** [torch.manual_seed(seed)] accepts the integers from [-2^63] to
    [2^64 - 1] (negative ones are remapped by the library, which
    [manual_seed] covers) and raises on every other one. *)
Definition seed_in_range (seed : Z) : bool :=
  ((- 9223372036854775808 <=? seed) && (seed <=? 18446744073709551615))%Z.

Definition torch_manual_seed {RS : RandomSource} (seed : Z) : result Generator :=
  if seed_in_range seed then Ok (manual_seed seed) else Err SeedOutOfRange.

(** ** Sampling bounds

    A bound handed to [uniform_] is a Python float: a number or an
    infinity.  [1. / np.sqrt(n)] is infinite at [n = 0] (the array library
    warns and carries on). *)

Inductive bound : Type :=
| Finite (r : R)
| PlusInf
| MinusInf.

Definition bound_opp (b : bound) : bound :=
  match b with
  | Finite r => Finite (- r)
  | PlusInf => MinusInf
  | MinusInf => PlusInf
  end.

Definition inv_sqrt (n : nat) : bound :=
  match n with
  | O => PlusInf
  | S _ => Finite (1 / sqrt (INR n))
  end.

(** ** Sampling: [tensor.uniform_(from, to)]

    An infinite bound is refused ("from is out of bounds for float"),
    whatever the tensor's size.  Otherwise every element is overwritten,
    in storage order, by [from + (to - from) * u] for a fresh draw [u] of
    the generator ([fill]).  The library also refuses [from > to];
    [model.py] never passes such a pair (its bounds are [-lim, lim] with
    [lim >= 0], and [-3e-3, 3e-3]), and the check is left out. *)

Section Sampling.
Context {RS : RandomSource}.

Fixpoint draws (n : nat) (lo hi : R) (g : Generator) : list R * Generator :=
  match n with
  | O => ([], g)
  | S n' =>
      let (u, g1) := random01 g in
      let (rest, g2) := draws n' lo hi g1 in
      (lo + (hi - lo) * u :: rest, g2)
  end.

Definition fill (t : Tensor) (lo hi : R) (g : Generator) : Tensor * Generator :=
  let (d, g') := draws (length (data t)) lo hi g in
  (mkTensor (size t) d, g').

Definition uniform_ (t : Tensor) (from to : bound) (g : Generator)
  : result (Tensor * Generator) :=
  match from, to with
  | Finite lo, Finite hi => Ok (fill t lo hi g)
  | _, _ => Err OutOfBounds
  end.
End Sampling.

(** ** [nn.Linear] *)

Module Linear.

Record t : Type := mk {
  in_features : Z;
  out_features : Z;
  weight : Tensor;   (* size (out_features, in_features) *)
  bias : Tensor      (* size (out_features) *)
}.

Definition wf (l : t) : Prop :=
  (0 <= in_features l)%Z /\ (0 <= out_features l)%Z /\
  size (weight l) = [Z.to_nat (out_features l); Z.to_nat (in_features l)] /\
  Tensor_wf (weight l) /\
  size (bias l) = [Z.to_nat (out_features l)] /\
  Tensor_wf (bias l).

Definition set_weight (l : t) (w : Tensor) : t :=
  mk (in_features l) (out_features l) w (bias l).

Section Init.
Context {RS : RandomSource}.

(** [nn.Linear(in_features, out_features)]: allocates weight and bias
    and fills both, weight first, uniformly within
    [1 / sqrt in_features] of zero (the library's default).  At
    [in_features = 0] the library takes the bound 0, and so does
    [1 / sqrt 0] on the reals, where the inverse of 0 is 0. *)
Definition init (in_features out_features : Z) (g : Generator)
  : result (t * Generator) :=
  if ((in_features <? 0) || (out_features <? 0))%Z then Err NegativeDimension
  else
    let bound := 1 / sqrt (IZR in_features) in
    '(w, g1) <- uniform_ (zeros [Z.to_nat out_features; Z.to_nat in_features])
                         (Finite (- bound)) (Finite bound) g ;;
    '(b, g2) <- uniform_ (zeros [Z.to_nat out_features])
                         (Finite (- bound)) (Finite bound) g1 ;;
    Ok (mk in_features out_features w b, g2).
End Init.

Definition dot (u v : list R) : R :=
  fold_right Rplus 0 (map (fun p => fst p * snd p) (combine u v)).

(** One input row through the layer: [x W^T + b]. *)
Definition affine (W : list (list R)) (b : list R) (x : list R) : list R :=
  map (fun p => dot x (fst p) + snd p) (combine W b).

(** [F.linear(input, weight, bias)]: the last axis of [input] must have
    the weight's second size; every leading axis is kept. *)
Definition forward (l : t) (input : Tensor) : result Tensor :=
  match rev (size input), size (weight l) with
  | k :: lead, [o; i] =>
      if (k =? i)%nat then
        Ok (mkTensor (rev lead ++ [o])
              (flat_map (affine (rows o i (data (weight l))) (data (bias l)))
                        (rows (numel (rev lead)) k (data input))))
      else Err DimensionMismatch
  | _, _ => Err DimensionMismatch
  end.

End Linear.

(** ** [hidden_init]

    [layer.weight.data.size()[0]] is the first entry of the weight's size;
    indexing an empty size raises.  For [fan_in = 0] the bound is
    infinite and the pair returned is [(-inf, inf)]. *)

Definition hidden_init (layer : Linear.t) : result (bound * bound) :=
  match size (Linear.weight layer) with
  | [] => Err IndexError
  | fan_in :: _ =>
      let lim := inv_sqrt fan_in in
      Ok (bound_opp lim, lim)
  end.

(** ** [nn.BatchNorm1d] *)

Module BatchNorm1d.

Record t : Type := mk {
  num_features : Z;
  eps : R;
  momentum : R;
  weight : Tensor;
  bias : Tensor;
  running_mean : Tensor;
  running_var : Tensor;
  num_batches_tracked : Z;
  training : bool
}.

Definition wf (b : t) : Prop :=
  (0 <= num_features b)%Z /\
  length (data (weight b)) = Z.to_nat (num_features b) /\
  length (data (bias b)) = Z.to_nat (num_features b) /\
  length (data (running_mean b)) = Z.to_nat (num_features b) /\
  length (data (running_var b)) = Z.to_nat (num_features b).

(** [nn.BatchNorm1d(num_features)]: scale one, shift zero, running mean
    zero, running variance one, no batch seen, [eps = 1e-5],
    [momentum = 0.1]; a fresh module is in training mode. *)
Definition init (num_features : Z) : result t :=
  if (num_features <? 0)%Z then Err NegativeDimension
  else
    let n := Z.to_nat num_features in
    Ok (mk num_features 1e-5 0.1 (ones [n]) (zeros [n]) (zeros [n]) (ones [n]) 0 true).

Definition set_training (b : t) (mode : bool) : t :=
  mk (num_features b) (eps b) (momentum b) (weight b) (bias b)
     (running_mean b) (running_var b) (num_batches_tracked b) mode.

(** The input is [(N, C)] or [(N, C, L)]; element [i] of the storage
    belongs to channel [(i / L) mod C]. *)
Definition view (s : list nat) : option (nat * nat * nat) :=
  match s with
  | [n; c] => Some (n, c, 1%nat)
  | [n; c; l] => Some (n, c, l)
  | _ => None
  end.

Definition channel (C L i : nat) : nat := ((i / L) mod C)%nat.

Definition indexed (d : list R) : list (nat * R) := combine (seq 0 (length d)) d.

Definition channel_values (C L c : nat) (d : list R) : list R :=
  map snd (filter (fun p => (channel C L (fst p) =? c)%nat) (indexed d)).

Definition sum (v : list R) : R := fold_right Rplus 0 v.
Definition mean (v : list R) : R := sum v / INR (length v).
Definition sq_dev (v : list R) : R := sum (map (fun x => (x - mean v) * (x - mean v)) v).
Definition var_biased (v : list R) : R := sq_dev v / INR (length v).
Definition var_unbiased (v : list R) : R := sq_dev v / (INR (length v) - 1).

Definition normalize (b : t) (C L : nat) (m v : list R) (d : list R) : list R :=
  map (fun p =>
         let c := channel C L (fst p) in
         (snd p - nth c m 0) / sqrt (nth c v 0 + eps b)
         * nth c (data (weight b)) 0 + nth c (data (bias b)) 0)
      (indexed d).

Definition blend (b : t) (old new : list R) : list R :=
  map (fun p => (1 - momentum b) * fst p + momentum b * snd p) (combine old new).

Definition count_batch (b : t) : t :=
  mk (num_features b) (eps b) (momentum b) (weight b) (bias b)
     (running_mean b) (running_var b) (num_batches_tracked b + 1)%Z (training b).

(** The module's forward pass.  Inputs that are neither two- nor
    three-dimensional are refused.  In training mode the batch is
    counted and an input with a single value per channel is refused
    ("Expected more than 1 value per channel when training").  An input
    without elements is then handed back as it is: the library returns
    before it compares the channel count with [num_features] and leaves
    the running statistics alone.  Otherwise, in training mode the batch
    statistics normalise the input and are blended into the running
    statistics; in evaluation mode the running statistics normalise the
    input and nothing is updated. *)
Definition forward (b : t) (input : Tensor) : result (Tensor * t) :=
  match view (size input) with
  | None => Err ValueError
  | Some (N, C, L) =>
      if training b then
        if (N * L =? 1)%nat then Err ValueError
        else if (numel (size input) =? 0)%nat then Ok (input, count_batch b)
        else if negb (C =? Z.to_nat (num_features b))%nat then Err DimensionMismatch
        else
          let per_channel := map (fun c => channel_values C L c (data input)) (seq 0 C) in
          let m := map mean per_channel in
          let v := map var_biased per_channel in
          let u := map var_unbiased per_channel in
          Ok (mkTensor (size input) (normalize b C L m v (data input)),
              mk (num_features b) (eps b) (momentum b) (weight b) (bias b)
                 (mkTensor (size (running_mean b)) (blend b (data (running_mean b)) m))
                 (mkTensor (size (running_var b)) (blend b (data (running_var b)) u))
                 (num_batches_tracked b + 1)%Z
                 (training b))
      else
        if (numel (size input) =? 0)%nat then Ok (input, b)
        else if negb (C =? Z.to_nat (num_features b))%nat then Err DimensionMismatch
        else
          Ok (mkTensor (size input)
                (normalize b C L (data (running_mean b)) (data (running_var b)) (data input)),
              b)
  end.

End BatchNorm1d.

(** ** [class Actor] *)

Module Actor.

Record t : Type := mk {
  fc1 : Linear.t;
  fc2 : Linear.t;
  fc3 : Linear.t;
  bn : BatchNorm1d.t
}.

Definition wf (self : t) : Prop :=
  Linear.wf (fc1 self) /\ Linear.wf (fc2 self) /\ Linear.wf (fc3 self) /\
  BatchNorm1d.wf (bn self) /\
  Linear.out_features (fc1 self) = BatchNorm1d.num_features (bn self) /\
  Linear.in_features (fc2 self) = Linear.out_features (fc1 self) /\
  Linear.in_features (fc3 self) = Linear.out_features (fc2 self).

(** [self.train(mode)] / [self.eval()] of the library's module class: the
    mode flag is read by the normalisation stage only. *)
Definition train (self : t) (mode : bool) : t :=
  mk (fc1 self) (fc2 self) (fc3 self) (BatchNorm1d.set_training (bn self) mode).

Section WithRandomSource.
Context {RS : RandomSource}.

Definition reset_parameters (self : t) (g : Generator) : result (t * Generator) :=
  '(lo1, hi1) <- hidden_init (fc1 self) ;;
  '(w1, g1) <- uniform_ (Linear.weight (fc1 self)) lo1 hi1 g ;;
  '(lo2, hi2) <- hidden_init (fc2 self) ;;
  '(w2, g2) <- uniform_ (Linear.weight (fc2 self)) lo2 hi2 g1 ;;
  '(w3, g3) <- uniform_ (Linear.weight (fc3 self)) (Finite (- 3e-3)) (Finite 3e-3) g2 ;;
  Ok (mk (Linear.set_weight (fc1 self) w1)
         (Linear.set_weight (fc2 self) w2)
         (Linear.set_weight (fc3 self) w3)
         (bn self),
      g3).

(** [Actor(input_dim, hidden_in_dim, hidden_out_dim, output_dim, seed)].
    The generator found on entry is overwritten by [torch.manual_seed];
    [self.seed] is that generator object itself and holds no parameter. *)
Definition init (input_dim hidden_in_dim hidden_out_dim output_dim seed : Z)
           (g0 : Generator) : result (t * Generator) :=
  g <- torch_manual_seed seed ;;
  '(l1, g) <- Linear.init input_dim hidden_in_dim g ;;
  '(l2, g) <- Linear.init hidden_in_dim hidden_out_dim g ;;
  '(l3, g) <- Linear.init hidden_out_dim output_dim g ;;
  b <- BatchNorm1d.init hidden_in_dim ;;
  reset_parameters (mk l1 l2 l3 b) g.
End WithRandomSource.

(** [forward(state)]; the second component is the network afterwards
    (the normalisation stage updates its running statistics in training
    mode). *)
Definition forward (self : t) (state : Tensor) : result (Tensor * t) :=
  let state := if (dim state =? 1)%nat then unsqueeze state 0 else state in
  x <- Linear.forward (fc1 self) state ;;
  let x := relu x in
  '(x, bn') <- BatchNorm1d.forward (bn self) x ;;
  x <- Linear.forward (fc2 self) x ;;
  let x := relu x in
  x <- Linear.forward (fc3 self) x ;;
  let x := tanh_ x in
  Ok (x, mk (fc1 self) (fc2 self) (fc3 self) bn').

End Actor.

(** ** [class Critic] *)

Module Critic.

Record t : Type := mk {
  fc1 : Linear.t;
  fc2 : Linear.t;
  fc3 : Linear.t;
  bn : BatchNorm1d.t
}.

Definition wf (self : t) : Prop :=
  Linear.wf (fc1 self) /\ Linear.wf (fc2 self) /\ Linear.wf (fc3 self) /\
  BatchNorm1d.wf (bn self) /\
  Linear.out_features (fc1 self) = BatchNorm1d.num_features (bn self) /\
  Linear.in_features (fc2 self) = Linear.out_features (fc1 self) /\
  Linear.in_features (fc3 self) = Linear.out_features (fc2 self) /\
  Linear.out_features (fc3 self) = 1%Z.

Definition train (self : t) (mode : bool) : t :=
  mk (fc1 self) (fc2 self) (fc3 self) (BatchNorm1d.set_training (bn self) mode).

Section WithRandomSource.
Context {RS : RandomSource}.

Definition reset_parameters (self : t) (g : Generator) : result (t * Generator) :=
  '(lo1, hi1) <- hidden_init (fc1 self) ;;
  '(w1, g1) <- uniform_ (Linear.weight (fc1 self)) lo1 hi1 g ;;
  '(lo2, hi2) <- hidden_init (fc2 self) ;;
  '(w2, g2) <- uniform_ (Linear.weight (fc2 self)) lo2 hi2 g1 ;;
  '(w3, g3) <- uniform_ (Linear.weight (fc3 self)) (Finite (- 3e-3)) (Finite 3e-3) g2 ;;
  Ok (mk (Linear.set_weight (fc1 self) w1)
         (Linear.set_weight (fc2 self) w2)
         (Linear.set_weight (fc3 self) w3)
         (bn self),
      g3).

(** [Critic(input_dim, hidden_in_dim, hidden_out_dim, seed)]. *)
Definition init (input_dim hidden_in_dim hidden_out_dim seed : Z)
           (g0 : Generator) : result (t * Generator) :=
  g <- torch_manual_seed seed ;;
  '(l1, g) <- Linear.init input_dim hidden_in_dim g ;;
  '(l2, g) <- Linear.init hidden_in_dim hidden_out_dim g ;;
  '(l3, g) <- Linear.init hidden_out_dim 1 g ;;
  b <- BatchNorm1d.init hidden_in_dim ;;
  reset_parameters (mk l1 l2 l3 b) g.
End WithRandomSource.

(** [forward(state, action)]. *)
Definition forward (self : t) (state action : Tensor) : result (Tensor * t) :=
  xs <- cat (state, action) 1 ;;
  x <- Linear.forward (fc1 self) xs ;;
  let x := relu x in
  '(x, bn') <- BatchNorm1d.forward (bn self) x ;;
  x <- Linear.forward (fc2 self) x ;;
  let x := relu x in
  x <- Linear.forward (fc3 self) x ;;
  Ok (x, mk (fc1 self) (fc2 self) (fc3 self) bn').

End Critic.

(** ** [class Actor_Critics] *)

Module Actor_Critics.

Record t : Type := mk {
  actor_local : Actor.t;
  actor_target : Actor.t;
  critic_local : Critic.t;
  critic_target : Critic.t
}.

Definition default_hidden_in_dim : Z := 256.
Definition default_hidden_out_dim : Z := 256.
Definition default_seed : Z := 0.

Section WithRandomSource.
Context {RS : RandomSource}.

(** [Actor_Critics(n_agents, state_size, action_size, hidden_in_dim,
    hidden_out_dim, seed)].  Moving a network to the device keeps its
    values, so [.to(device)] leaves no trace here. *)
Definition init (n_agents state_size action_size hidden_in_dim hidden_out_dim seed : Z)
           (g : Generator) : result (t * Generator) :=
  '(al, g) <- Actor.init state_size hidden_in_dim hidden_out_dim action_size seed g ;;
  '(at_, g) <- Actor.init state_size hidden_in_dim hidden_out_dim action_size seed g ;;
  let critic_input_size := ((state_size + action_size) * n_agents)%Z in
  '(cl, g) <- Critic.init critic_input_size hidden_in_dim hidden_out_dim seed g ;;
  '(ct, g) <- Critic.init critic_input_size hidden_in_dim hidden_out_dim seed g ;;
  Ok (mk al at_ cl ct, g).

Definition init_default (n_agents state_size action_size : Z) (g : Generator)
  : result (t * Generator) :=
  init n_agents state_size action_size
       default_hidden_in_dim default_hidden_out_dim default_seed g.
End WithRandomSource.

End Actor_Critics.

(** A critic's layers, seen as an actor's (the two classes hold the same
    four members). *)
Definition as_actor (c : Critic.t) : Actor.t :=
  Actor.mk (Critic.fc1 c) (Critic.fc2 c) (Critic.fc3 c) (Critic.bn c).

(** The flat-vector promotion at the head of [Actor.forward]. *)
Definition promote (state : Tensor) : Tensor :=
  if (dim state =? 1)%nat then unsqueeze state 0 else state.

(** The last entry of a size, if any. *)
Definition last_dim (s : list nat) : option nat :=
  match rev s with
  | [] => None
  | k :: _ => Some k
  end.

Definition within (lo hi : R) (t : Tensor) : Prop :=
  Forall (fun v => lo <= v <= hi) (data t).

(** And back: an actor's four members, seen as a critic's. *)
Definition as_critic (a : Actor.t) : Critic.t :=
  Critic.mk (Actor.fc1 a) (Actor.fc2 a) (Actor.fc3 a) (Actor.bn a).

(** The weights of a layer lie within [1 / sqrt d] of zero, [d] being the
    first size of the layer's own weight tensor. *)
Definition hidden_range (l : Linear.t) : Prop :=
  forall (d : nat) (rest : list nat),
    size (Linear.weight l) = d :: rest ->
    within (- (1 / sqrt (INR d))) (1 / sqrt (INR d)) (Linear.weight l).

(** The initialisation ranges of a network's three layers. *)
Definition initial_ranges (a : Actor.t) : Prop :=
  hidden_range (Actor.fc1 a) /\
  hidden_range (Actor.fc2 a) /\
  within (-0.003) 0.003 (Linear.weight (Actor.fc3 a)).

(** What [reset_parameters] must leave alone: the three biases, the
    declared widths, and the whole normalisation stage. *)
Definition same_frame (a a' : Actor.t) : Prop :=
  Linear.bias (Actor.fc1 a') = Linear.bias (Actor.fc1 a) /\
  Linear.bias (Actor.fc2 a') = Linear.bias (Actor.fc2 a) /\
  Linear.bias (Actor.fc3 a') = Linear.bias (Actor.fc3 a) /\
  Actor.bn a' = Actor.bn a /\
  (Linear.in_features (Actor.fc1 a'), Linear.out_features (Actor.fc1 a'))
    = (Linear.in_features (Actor.fc1 a), Linear.out_features (Actor.fc1 a)) /\
  (Linear.in_features (Actor.fc2 a'), Linear.out_features (Actor.fc2 a'))
    = (Linear.in_features (Actor.fc2 a), Linear.out_features (Actor.fc2 a)) /\
  (Linear.in_features (Actor.fc3 a'), Linear.out_features (Actor.fc3 a'))
    = (Linear.in_features (Actor.fc3 a), Linear.out_features (Actor.fc3 a)).


(** The members of a freshly built network that [reset_parameters] does
    not write: they are what the library's constructors made them. *)
Definition default_members {RS : RandomSource}
           (i h1 h2 o seed : Z) (a : Actor.t) : Prop :=
  exists l1 g1 l2 g2 l3 g3 b,
    Linear.init i h1 (manual_seed seed) = Ok (l1, g1) /\
    Linear.init h1 h2 g1 = Ok (l2, g2) /\
    Linear.init h2 o g2 = Ok (l3, g3) /\
    BatchNorm1d.init h1 = Ok b /\
    Linear.bias (Actor.fc1 a) = Linear.bias l1 /\
    Linear.bias (Actor.fc2 a) = Linear.bias l2 /\
    Linear.bias (Actor.fc3 a) = Linear.bias l3 /\
    Actor.bn a = b.

(** Row [i] of the result is row [i] of [a] followed by row [i] of [b]. *)
Definition joined_rows (B n m : nat) (a b : Tensor) : list R :=
  concat (map (fun p => fst p ++ snd p)
              (combine (rows B n (data a)) (rows B m (data b)))).

(** A critic in evaluation mode whose layers are all zero except the bias
    of the last one, which is [v]. *)
Definition constant_critic (v : R) : Critic.t :=
  Critic.mk (Linear.mk 2 1 (zeros [1%nat; 2%nat]) (zeros [1%nat]))
            (Linear.mk 1 1 (zeros [1%nat; 1%nat]) (zeros [1%nat]))
            (Linear.mk 1 1 (zeros [1%nat; 1%nat]) (mkTensor [1%nat] [v]))
            (BatchNorm1d.mk 1 1e-5 0.1 (ones [1%nat]) (zeros [1%nat])
                            (zeros [1%nat]) (ones [1%nat]) 0 false).

(** The one-dimensional empty tensor. *)
Definition empty_vector : Tensor := mkTensor [O] [].

(** A layer of 256 outputs over 2 inputs, all zero. *)
Definition layer_256 : Linear.t :=
  Linear.mk 2 256 (zeros [256%nat; 2%nat]) (zeros [256%nat]).

(** ** One row at a time

    What the three layers and the normalisation stage do to a single row
    when the running statistics are used. *)

Definition layer_row (l : Linear.t) (r : list R) : list R :=
  Linear.affine
    (rows (Z.to_nat (Linear.out_features l)) (Z.to_nat (Linear.in_features l))
          (data (Linear.weight l)))
    (data (Linear.bias l)) r.

Definition bn_row (b : BatchNorm1d.t) (r : list R) : list R :=
  BatchNorm1d.normalize b (Z.to_nat (BatchNorm1d.num_features b)) 1
    (data (BatchNorm1d.running_mean b)) (data (BatchNorm1d.running_var b)) r.

Definition eval_row (l1 l2 l3 : Linear.t) (b : BatchNorm1d.t) (r : list R) : list R :=
  layer_row l3 (map (Rmax 0) (layer_row l2 (bn_row b (map (Rmax 0) (layer_row l1 r))))).

(** Row [i] of a two-dimensional tensor, as a tensor of one row. *)
Definition row_tensor (x : Tensor) (i : nat) : Tensor :=
  match size x with
  | [B; k] => mkTensor [1%nat; k] (nth i (rows B k (data x)) [])
  | _ => x
  end.

(** What a call of [forward] comes to, values apart: the error, or the
    size of the tensor returned. *)
Definition outcome {A : Type} (r : result (Tensor * A)) : result (list nat) :=
  match r with
  | Ok (y, _) => Ok (size y)
  | Err e => Err e
  end.

(** What [forward] leaves alone in the normalisation stage. *)
Definition same_settings (b b' : BatchNorm1d.t) : Prop :=
  BatchNorm1d.num_features b' = BatchNorm1d.num_features b /\
  BatchNorm1d.eps b' = BatchNorm1d.eps b /\
  BatchNorm1d.momentum b' = BatchNorm1d.momentum b /\
  BatchNorm1d.weight b' = BatchNorm1d.weight b /\
  BatchNorm1d.bias b' = BatchNorm1d.bias b /\
  BatchNorm1d.training b' = BatchNorm1d.training b /\
  size (BatchNorm1d.running_mean b') = size (BatchNorm1d.running_mean b) /\
  size (BatchNorm1d.running_var b') = size (BatchNorm1d.running_var b).

(** Two layers whose weight tensors have the same size. *)
Definition same_sizes (l l' : Linear.t) : Prop :=
  size (Linear.weight l) = size (Linear.weight l').

(** The weights of layers 1 and 2 of a network all lie in [[lo, hi]]. *)
Definition hidden_weights_within (lo hi : R) (a : Actor.t) : Prop :=
  within lo hi (Linear.weight (Actor.fc1 a)) /\
  within lo hi (Linear.weight (Actor.fc2 a)).

(** * Properties *)

(** ** Results *)

Lemma bind_Ok {A B : Type} (r : result A) (k : A -> result B) (b : B) :
  bind r k = Ok b -> exists a, r = Ok a /\ k a = Ok b.
Proof.
  destruct r as [a | e]; simpl; intros H.
  - exists a. split; [reflexivity | exact H].
  - discriminate H.
Qed.

Ltac inv_bind H :=
  let a := fresh "a" in
  let Ha := fresh "Ha" in
  apply bind_Ok in H; destruct H as (a & Ha & H).

(** ** Sizes and element counts *)

Lemma numel_app (s1 s2 : list nat) : numel (s1 ++ s2) = (numel s1 * numel s2)%nat.
Proof.
  induction s1 as [| a s1 IH]; simpl.
  - lia.
  - rewrite IH. lia.
Qed.

Lemma numel_rev (s : list nat) : numel (rev s) = numel s.
Proof.
  induction s as [| a s IH]; simpl; [reflexivity |].
  rewrite numel_app, IH. simpl. lia.
Qed.

Lemma rows_length (n k : nat) (d : list R) : length (rows n k d) = n.
Proof.
  revert d. induction n as [| n IH]; intros d; simpl; [reflexivity |].
  now rewrite IH.
Qed.

Lemma flat_map_length_const {A B : Type} (f : A -> list B) (c : nat) (l : list A) :
  (forall x, length (f x) = c) -> length (flat_map f l) = (length l * c)%nat.
Proof.
  intros Hf. induction l as [| x l IH]; simpl; [reflexivity |].
  rewrite length_app, Hf, IH. reflexivity.
Qed.

Lemma zeros_wf (s : list nat) : Tensor_wf (zeros s).
Proof. unfold Tensor_wf, zeros. simpl. apply repeat_length. Qed.

Lemma ones_wf (s : list nat) : Tensor_wf (ones s).
Proof. unfold Tensor_wf, ones. simpl. apply repeat_length. Qed.

Lemma relu_size (x : Tensor) : size (relu x) = size x.
Proof. reflexivity. Qed.

Lemma relu_wf (x : Tensor) : Tensor_wf x -> Tensor_wf (relu x).
Proof. unfold Tensor_wf, relu. simpl. now rewrite length_map. Qed.

Lemma tanh_wf (x : Tensor) : Tensor_wf x -> Tensor_wf (tanh_ x).
Proof. unfold Tensor_wf, tanh_. simpl. now rewrite length_map. Qed.

(** ** Sampling *)

Section SamplingFacts.
Context {RS : RandomSource}.

Lemma draws_length (n : nat) (lo hi : R) (g : Generator) :
  length (fst (draws n lo hi g)) = n.
Proof.
  revert g. induction n as [| n IH]; intros g; simpl; [reflexivity |].
  destruct (random01 g) as [u g1].
  specialize (IH g1). destruct (draws n lo hi g1) as [rest g2].
  simpl in *. now rewrite IH.
Qed.

Lemma draws_within (n : nat) (lo hi : R) (g : Generator) :
  unit_draws RS -> lo <= hi ->
  Forall (fun v => lo <= v <= hi) (fst (draws n lo hi g)).
Proof.
  intros Hu Hle. revert g. induction n as [| n IH]; intros g; simpl.
  - constructor.
  - pose proof (Hu g) as Hg.
    destruct (random01 g) as [u g1]. simpl in Hg.
    specialize (IH g1). destruct (draws n lo hi g1) as [rest g2].
    simpl in *. constructor; [| exact IH].
    split; nra.
Qed.

Lemma fill_size (t : Tensor) (lo hi : R) (g : Generator) :
  size (fst (fill t lo hi g)) = size t.
Proof.
  unfold fill. destruct (draws (length (data t)) lo hi g). reflexivity.
Qed.

Lemma fill_length (t : Tensor) (lo hi : R) (g : Generator) :
  length (data (fst (fill t lo hi g))) = length (data t).
Proof.
  unfold fill.
  pose proof (draws_length (length (data t)) lo hi g) as H.
  destruct (draws (length (data t)) lo hi g). exact H.
Qed.

Lemma fill_wf (t : Tensor) (lo hi : R) (g : Generator) :
  Tensor_wf t -> Tensor_wf (fst (fill t lo hi g)).
Proof.
  unfold Tensor_wf. intros H. now rewrite fill_length, fill_size.
Qed.

Lemma fill_within (t : Tensor) (lo hi : R) (g : Generator) :
  unit_draws RS -> lo <= hi -> within lo hi (fst (fill t lo hi g)).
Proof.
  intros Hu Hle. unfold within, fill.
  pose proof (draws_within (length (data t)) lo hi g Hu Hle) as H.
  destruct (draws (length (data t)) lo hi g). exact H.
Qed.

(** [uniform_] answers exactly when both bounds are finite. *)
Lemma uniform_inv (t t' : Tensor) (from to : bound) (g g' : Generator) :
  uniform_ t from to g = Ok (t', g') ->
  exists lo hi, from = Finite lo /\ to = Finite hi /\ fill t lo hi g = (t', g').
Proof.
  unfold uniform_.
  destruct from as [lo | |]; try discriminate.
  destruct to as [hi | |]; try discriminate.
  intros [= H]. eauto.
Qed.

Lemma uniform_infinite (t : Tensor) (from to : bound) (g : Generator) :
  from = MinusInf \/ to = PlusInf -> uniform_ t from to g = Err OutOfBounds.
Proof.
  unfold uniform_. intros [-> | ->]; [reflexivity |].
  destruct from; reflexivity.
Qed.

Lemma seed_in_range_ok (seed : Z) :
  seed_in_range seed = true -> torch_manual_seed seed = Ok (manual_seed seed).
Proof. unfold torch_manual_seed. now intros ->. Qed.

End SamplingFacts.

(** ** Linear layers *)

Lemma affine_length (W : list (list R)) (b x : list R) :
  length (Linear.affine W b x) = Nat.min (length W) (length b).
Proof. unfold Linear.affine. now rewrite length_map, length_combine. Qed.

Lemma Linear_forward_ok (l : Linear.t) (x : Tensor) (lead : list nat) :
  Linear.wf l ->
  size x = lead ++ [Z.to_nat (Linear.in_features l)] ->
  exists y, Linear.forward l x = Ok y /\
            size y = lead ++ [Z.to_nat (Linear.out_features l)] /\
            Tensor_wf y.
Proof.
  intros (_ & _ & Hw & _ & Hb & Hbw) Hx.
  unfold Linear.forward. rewrite Hx, rev_app_distr, Hw. simpl.
  rewrite Nat.eqb_refl, rev_involutive.
  eexists. split; [reflexivity |]. split; [reflexivity |].
  unfold Tensor_wf. simpl.
  rewrite (flat_map_length_const _ (Z.to_nat (Linear.out_features l))).
  - now rewrite rows_length, numel_app; simpl; rewrite Nat.mul_1_r.
  - intros r. rewrite affine_length, rows_length.
    unfold Tensor_wf in Hbw. rewrite Hbw, Hb. simpl. lia.
Qed.

Lemma Linear_forward_mismatch (l : Linear.t) (x : Tensor) :
  Linear.wf l ->
  last_dim (size x) <> Some (Z.to_nat (Linear.in_features l)) ->
  Linear.forward l x = Err DimensionMismatch.
Proof.
  intros (_ & _ & Hw & _) Hx.
  unfold Linear.forward, last_dim in *. rewrite Hw.
  destruct (rev (size x)) as [| k lead]; [reflexivity |].
  destruct (Nat.eqb_spec k (Z.to_nat (Linear.in_features l))) as [-> | Hne].
  - now elim Hx.
  - reflexivity.
Qed.

(** Whatever the layer, an output has one more axis than the input's
    leading axes. *)
Lemma Linear_forward_rank (l : Linear.t) (x y : Tensor) :
  Linear.forward l x = Ok y -> dim y = dim x.
Proof.
  unfold Linear.forward, dim.
  rewrite <- (length_rev (size x)).
  destruct (rev (size x)) as [| k lead]; [discriminate |].
  destruct (size (Linear.weight l)) as [| o [| i [| ? ?]]]; try discriminate.
  destruct (k =? i)%nat; [| discriminate].
  intros [= <-]. simpl. rewrite length_app, length_rev. simpl. lia.
Qed.

Section LinearInit.
Context {RS : RandomSource}.

Lemma Linear_init_ok (i o : Z) (g : Generator) :
  (0 <= i)%Z -> (0 <= o)%Z ->
  exists l g', Linear.init i o g = Ok (l, g').
Proof.
  intros Hi Ho. unfold Linear.init.
  destruct (Z.ltb_spec i 0); [lia |].
  destruct (Z.ltb_spec o 0); [lia |]. simpl.
  destruct (fill _ _ _ g) as [w g1]. simpl.
  destruct (fill _ _ _ g1) as [b g2]. simpl.
  eauto.
Qed.

Lemma Linear_init_inv (i o : Z) (g g' : Generator) (l : Linear.t) :
  Linear.init i o g = Ok (l, g') ->
  Linear.wf l /\ Linear.in_features l = i /\ Linear.out_features l = o.
Proof.
  unfold Linear.init.
  destruct (Z.ltb_spec i 0); [discriminate |].
  destruct (Z.ltb_spec o 0); [discriminate |]. simpl.
  pose proof (fill_size (zeros [Z.to_nat o; Z.to_nat i])
                (- (1 / sqrt (IZR i))) (1 / sqrt (IZR i)) g) as Hs1.
  pose proof (fill_wf (zeros [Z.to_nat o; Z.to_nat i])
                (- (1 / sqrt (IZR i))) (1 / sqrt (IZR i)) g (zeros_wf _)) as Hw1.
  destruct (fill _ _ _ g) as [w g1]. simpl.
  pose proof (fill_size (zeros [Z.to_nat o])
                (- (1 / sqrt (IZR i))) (1 / sqrt (IZR i)) g1) as Hs2.
  pose proof (fill_wf (zeros [Z.to_nat o])
                (- (1 / sqrt (IZR i))) (1 / sqrt (IZR i)) g1 (zeros_wf _)) as Hw2.
  destruct (fill _ _ _ g1) as [b g2]. simpl.
  intros [= <- <-]. simpl in *.
  repeat split; assumption.
Qed.
End LinearInit.

(** ** The normalisation stage *)

Lemma BatchNorm1d_init_inv (n : Z) (b : BatchNorm1d.t) :
  BatchNorm1d.init n = Ok b ->
  BatchNorm1d.wf b /\ BatchNorm1d.num_features b = n /\ BatchNorm1d.training b = true.
Proof.
  unfold BatchNorm1d.init. destruct (Z.ltb_spec n 0); [discriminate |].
  intros [= <-]. unfold BatchNorm1d.wf. simpl.
  rewrite !repeat_length. simpl. repeat split; lia.
Qed.

Lemma BatchNorm1d_init_ok (n : Z) :
  (0 <= n)%Z -> exists b, BatchNorm1d.init n = Ok b.
Proof.
  intros Hn. unfold BatchNorm1d.init. destruct (Z.ltb_spec n 0); [lia |]. eauto.
Qed.

Lemma normalize_length (b : BatchNorm1d.t) (C L : nat) (m v d : list R) :
  length (BatchNorm1d.normalize b C L m v d) = length d.
Proof.
  unfold BatchNorm1d.normalize, BatchNorm1d.indexed.
  rewrite length_map, length_combine, length_seq. lia.
Qed.

(** On a batch of [N] rows of the right width the stage answers, unless
    it is in training mode and [N = 1]; the size is kept. *)
Lemma BatchNorm1d_forward_ok (b : BatchNorm1d.t) (x : Tensor) (N : nat) :
  size x = [N; Z.to_nat (BatchNorm1d.num_features b)] ->
  BatchNorm1d.training b = false \/ N <> 1%nat ->
  exists y b', BatchNorm1d.forward b x = Ok (y, b') /\
               size y = size x /\
               length (data y) = length (data x) /\
               BatchNorm1d.training b' = BatchNorm1d.training b /\
               BatchNorm1d.num_features b' = BatchNorm1d.num_features b.
Proof.
  intros Hx Hmode. unfold BatchNorm1d.forward. rewrite Hx.
  cbn [BatchNorm1d.view]. rewrite Nat.eqb_refl. cbn [negb].
  destruct (numel [N; Z.to_nat (BatchNorm1d.num_features b)] =? 0)%nat.
  - destruct (BatchNorm1d.training b) eqn:Ht.
    + destruct Hmode as [Hf | HN]; [discriminate |].
      rewrite Nat.mul_1_r.
      destruct (Nat.eqb_spec N 1); [contradiction |].
      eexists. eexists. split; [reflexivity |]. simpl. auto.
    + eexists. eexists. split; [reflexivity |]. auto.
  - destruct (BatchNorm1d.training b) eqn:Ht.
    + destruct Hmode as [Hf | HN]; [discriminate |].
      rewrite Nat.mul_1_r.
      destruct (Nat.eqb_spec N 1); [contradiction |].
      eexists. eexists. split; [reflexivity |]. simpl.
      rewrite normalize_length. auto.
    + eexists. eexists. split; [reflexivity |]. simpl.
      rewrite normalize_length. auto.
Qed.

(** In training mode a single row is refused, before the widths are even
    compared. *)
Lemma BatchNorm1d_forward_single (b : BatchNorm1d.t) (x : Tensor) (C : nat) :
  size x = [1%nat; C] ->
  BatchNorm1d.training b = true ->
  BatchNorm1d.forward b x = Err ValueError.
Proof.
  intros Hx Ht. unfold BatchNorm1d.forward. rewrite Hx. simpl. now rewrite Ht.
Qed.

Lemma BatchNorm1d_forward_rank (b b' : BatchNorm1d.t) (x y : Tensor) :
  BatchNorm1d.forward b x = Ok (y, b') -> (2 <= dim x)%nat.
Proof.
  unfold BatchNorm1d.forward, dim.
  destruct (size x) as [| n [| c [| l [| ? ?]]]];
    cbn [BatchNorm1d.view length]; try discriminate; lia.
Qed.

(** ** [hidden_init] *)

Lemma sqrt_256 : sqrt (INR 256) = 16.
Proof.
  rewrite INR_IZR_INZ. change (Z.of_nat 256) with 256%Z.
  replace 256 with (16 * 16) by lra.
  apply sqrt_square. lra.
Qed.

Lemma hidden_lim_pos (d : nat) : (1 <= d)%nat -> 0 < 1 / sqrt (INR d).
Proof.
  intros Hd. apply Rdiv_lt_0_compat; [lra |].
  apply sqrt_lt_R0. apply lt_0_INR. lia.
Qed.

Lemma hidden_lim_nonneg (d : nat) : 0 <= 1 / sqrt (INR d).
Proof.
  destruct d as [| d].
  - simpl. rewrite sqrt_0. unfold Rdiv. rewrite Rinv_0. lra.
  - left. apply hidden_lim_pos. lia.
Qed.

Lemma inv_sqrt_finite (d : nat) :
  (1 <= d)%nat -> inv_sqrt d = Finite (1 / sqrt (INR d)).
Proof. destruct d; [lia | reflexivity]. Qed.

(** C4.  For a layer whose weight tensor has first size [d >= 1],
    [hidden_init] returns exactly the pair [(-1/sqrt d, 1/sqrt d)], a
    positive bound; [d] is the layer's output width (the weight is stored
    as outputs by inputs), and [d = 256] gives [(-0.0625, 0.0625)].  The
    function takes the layer and nothing else and returns the pair and
    nothing else: no generator, no layer is read or produced besides. *)
Theorem hidden_init_bounds (layer : Linear.t) (d : nat) (rest : list nat) :
  size (Linear.weight layer) = d :: rest ->
  (1 <= d)%nat ->
  hidden_init layer = Ok (Finite (- (1 / sqrt (INR d))), Finite (1 / sqrt (INR d))) /\
  0 < 1 / sqrt (INR d) /\
  (Linear.wf layer -> d = Z.to_nat (Linear.out_features layer)) /\
  (d = 256%nat -> hidden_init layer = Ok (Finite (-0.0625), Finite 0.0625)).
Proof.
  intros Hs Hd. unfold hidden_init. rewrite Hs.
  rewrite (inv_sqrt_finite d Hd). cbn [bound_opp].
  split; [reflexivity |].
  split; [apply hidden_lim_pos; exact Hd |].
  split.
  - intros (_ & _ & Hw & _). rewrite Hw in Hs. now injection Hs.
  - intros ->. rewrite sqrt_256. f_equal. f_equal; f_equal; lra.
Qed.

Lemma hidden_init_bounds_witness :
  hidden_init layer_256 = Ok (Finite (-0.0625), Finite 0.0625) /\
  256%nat = Z.to_nat (Linear.out_features layer_256).
Proof.
  destruct (hidden_init_bounds layer_256 256 [2%nat]) as (_ & _ & Hout & H256).
  - reflexivity.
  - lia.
  - split; [apply H256; reflexivity | reflexivity].
Defined.

(** ** [reset_parameters] and construction *)

Lemma within_weaken (lo hi lo' hi' : R) (t : Tensor) :
  lo' <= lo -> hi <= hi' -> within lo hi t -> within lo' hi' t.
Proof.
  intros Hlo Hhi. unfold within. apply Forall_impl. intros v Hv. lra.
Qed.

Lemma inv_sqrt_inv (d : nat) (y : R) :
  inv_sqrt d = Finite y -> (1 <= d)%nat /\ y = 1 / sqrt (INR d).
Proof.
  destruct d as [| d]; [discriminate |].
  change (inv_sqrt (S d)) with (Finite (1 / sqrt (INR (S d)))).
  intros [= <-]. split; [lia | reflexivity].
Qed.

Lemma hidden_init_inv (l : Linear.t) (lo hi : bound) :
  hidden_init l = Ok (lo, hi) ->
  exists d rest, size (Linear.weight l) = d :: rest /\
                 lo = bound_opp (inv_sqrt d) /\ hi = inv_sqrt d.
Proof.
  unfold hidden_init. destruct (size (Linear.weight l)) as [| d rest]; [discriminate |].
  intros [= <- <-]. eauto.
Qed.

(** The bounds [uniform_] accepts from [hidden_init] are the finite pair
    of a first size that is not zero. *)
Lemma hidden_bounds_inv (d : nat) (lo hi : R) :
  bound_opp (inv_sqrt d) = Finite lo -> inv_sqrt d = Finite hi ->
  (1 <= d)%nat /\ lo = - (1 / sqrt (INR d)) /\ hi = 1 / sqrt (INR d).
Proof.
  intros Hlo Hhi. destruct (inv_sqrt_inv d hi Hhi) as (Hd & ->).
  rewrite (inv_sqrt_finite d Hd) in Hlo. injection Hlo as <-. auto.
Qed.

Section Construction.
Context {RS : RandomSource}.

(** The result of [reset_parameters], layer by layer. *)
Lemma Actor_reset_inv (a a' : Actor.t) (g g' : Generator) :
  Actor.reset_parameters a g = Ok (a', g') ->
  exists d1 r1 d2 r2 g1 g2 w1 w2 w3,
    size (Linear.weight (Actor.fc1 a)) = d1 :: r1 /\
    size (Linear.weight (Actor.fc2 a)) = d2 :: r2 /\
    fill (Linear.weight (Actor.fc1 a))
         (- (1 / sqrt (INR d1))) (1 / sqrt (INR d1)) g = (w1, g1) /\
    fill (Linear.weight (Actor.fc2 a))
         (- (1 / sqrt (INR d2))) (1 / sqrt (INR d2)) g1 = (w2, g2) /\
    fill (Linear.weight (Actor.fc3 a)) (- 3e-3) 3e-3 g2 = (w3, g') /\
    a' = Actor.mk (Linear.set_weight (Actor.fc1 a) w1)
                  (Linear.set_weight (Actor.fc2 a) w2)
                  (Linear.set_weight (Actor.fc3 a) w3)
                  (Actor.bn a).
Proof.
  unfold Actor.reset_parameters. intros H.
  inv_bind H. destruct a0 as [lo1 hi1].
  apply hidden_init_inv in Ha. destruct Ha as (d1 & r1 & Hs1 & -> & ->).
  inv_bind H. destruct a0 as [w1 g1].
  apply uniform_inv in Ha. destruct Ha as (x1 & y1 & Hx1 & Hy1 & E1).
  destruct (hidden_bounds_inv d1 x1 y1 Hx1 Hy1) as (_ & -> & ->).
  inv_bind H. destruct a0 as [lo2 hi2].
  apply hidden_init_inv in Ha. destruct Ha as (d2 & r2 & Hs2 & -> & ->).
  inv_bind H. destruct a0 as [w2 g2].
  apply uniform_inv in Ha. destruct Ha as (x2 & y2 & Hx2 & Hy2 & E2).
  destruct (hidden_bounds_inv d2 x2 y2 Hx2 Hy2) as (_ & -> & ->).
  inv_bind H. destruct a0 as [w3 g3].
  apply uniform_inv in Ha. destruct Ha as (x3 & y3 & Hx3 & Hy3 & E3).
  injection Hx3 as <-. injection Hy3 as <-.
  injection H as <- <-.
  exists d1, r1, d2, r2, g1, g2, w1, w2, w3. repeat split; assumption.
Qed.


Lemma Actor_reset_ok (a : Actor.t) (g : Generator) :
  Actor.wf a ->
  (0 < Linear.out_features (Actor.fc1 a))%Z ->
  (0 < Linear.out_features (Actor.fc2 a))%Z ->
  exists a' g', Actor.reset_parameters a g = Ok (a', g').
Proof.
  intros ((_ & _ & H1 & _) & (_ & _ & H2 & _) & _) P1 P2.
  unfold Actor.reset_parameters, hidden_init. rewrite H1, H2.
  rewrite !inv_sqrt_finite by lia. cbn [bind bound_opp uniform_].
  destruct (fill _ _ _ g) as [w1 g1]. cbn [bind].
  destruct (fill _ _ _ g1) as [w2 g2]. cbn [bind].
  destruct (fill _ _ _ g2) as [w3 g3]. cbn [bind].
  eauto.
Qed.

(** On a layer 1 or 2 without outputs the bound is infinite and the
    sampling is refused. *)
Lemma Actor_reset_zero_width (a : Actor.t) (g : Generator) :
  Actor.wf a ->
  Linear.out_features (Actor.fc1 a) = 0%Z \/ Linear.out_features (Actor.fc2 a) = 0%Z ->
  Actor.reset_parameters a g = Err OutOfBounds.
Proof.
  intros ((_ & O1 & H1 & _) & (_ & _ & H2 & _) & _) Hz.
  unfold Actor.reset_parameters, hidden_init. rewrite H1, H2.
  destruct (Z.eq_dec (Linear.out_features (Actor.fc1 a)) 0) as [E1 | N1].
  - rewrite E1. reflexivity.
  - destruct Hz as [E1 | E2]; [contradiction |].
    rewrite E2. rewrite inv_sqrt_finite by lia. cbn [bind bound_opp uniform_].
    destruct (fill _ _ _ g) as [w1 g1]. reflexivity.
Qed.

Lemma set_weight_wf (l : Linear.t) (lo hi : R) (g : Generator) :
  Linear.wf l ->
  Linear.wf (Linear.set_weight l (fst (fill (Linear.weight l) lo hi g))).
Proof.
  intros (Hi & Ho & Hs & Hw & Hb & Hbw).
  unfold Linear.wf, Linear.set_weight. simpl.
  rewrite fill_size. repeat split; try assumption.
  apply fill_wf. exact Hw.
Qed.

Lemma Actor_reset_wf (a a' : Actor.t) (g g' : Generator) :
  Actor.wf a -> Actor.reset_parameters a g = Ok (a', g') -> Actor.wf a'.
Proof.
  intros (W1 & W2 & W3 & Wb & E1 & E2 & E3) H.
  apply Actor_reset_inv in H.
  destruct H as (d1 & r1 & d2 & r2 & g1 & g2 & w1 & w2 & w3
                 & _ & _ & U1 & U2 & U3 & ->).
  apply (f_equal fst) in U1, U2, U3. simpl in U1, U2, U3. subst w1 w2 w3.
  unfold Actor.wf. simpl.
  split; [apply set_weight_wf; exact W1 |].
  split; [apply set_weight_wf; exact W2 |].
  split; [apply set_weight_wf; exact W3 |].
  auto.
Qed.

Lemma Actor_reset_ranges (a a' : Actor.t) (g g' : Generator) :
  unit_draws RS ->
  Actor.reset_parameters a g = Ok (a', g') -> initial_ranges a'.
Proof.
  intros Hu H. apply Actor_reset_inv in H.
  destruct H as (d1 & r1 & d2 & r2 & g1 & g2 & w1 & w2 & w3
                 & S1 & S2 & U1 & U2 & U3 & ->).
  apply (f_equal fst) in U1, U2, U3. simpl in U1, U2, U3. subst w1 w2 w3.
  unfold initial_ranges, hidden_range. simpl.
  split; [| split].
  - intros d rest Hs. rewrite fill_size, S1 in Hs. injection Hs as <- _.
    apply fill_within; [exact Hu |].
    pose proof (hidden_lim_nonneg d1). lra.
  - intros d rest Hs. rewrite fill_size, S2 in Hs. injection Hs as <- _.
    apply fill_within; [exact Hu |].
    pose proof (hidden_lim_nonneg d2). lra.
  - apply within_weaken with (- 3e-3) 3e-3; [lra | lra |].
    apply fill_within; [exact Hu | lra].
Qed.

Lemma Actor_reset_frame (a a' : Actor.t) (g g' : Generator) :
  Actor.reset_parameters a g = Ok (a', g') -> same_frame a a'.
Proof.
  intros H. apply Actor_reset_inv in H.
  destruct H as (d1 & r1 & d2 & r2 & g1 & g2 & w1 & w2 & w3
                 & _ & _ & _ & _ & _ & ->).
  unfold same_frame. simpl. repeat split; reflexivity.
Qed.

(** The critic's method is the actor's, on the critic's own members. *)
Lemma Critic_reset_as_actor (c : Critic.t) (g : Generator) :
  Critic.reset_parameters c g =
  ' (a, g') <- Actor.reset_parameters (as_actor c) g ;; Ok (as_critic a, g').
Proof.
  unfold Critic.reset_parameters, Actor.reset_parameters, as_actor.
  cbn [Actor.fc1 Actor.fc2 Actor.fc3 Actor.bn].
  destruct (hidden_init (Critic.fc1 c)) as [[lo1 hi1] | e]; [| reflexivity].
  cbn [bind].
  destruct (uniform_ _ lo1 hi1 g) as [[w1 g1] | e]; [| reflexivity]. cbn [bind].
  destruct (hidden_init (Critic.fc2 c)) as [[lo2 hi2] | e]; [| reflexivity].
  cbn [bind].
  destruct (uniform_ _ lo2 hi2 g1) as [[w2 g2] | e]; [| reflexivity]. cbn [bind].
  destruct (uniform_ _ _ _ g2) as [[w3 g3] | e]; reflexivity.
Qed.

Lemma Critic_reset_inv (c c' : Critic.t) (g g' : Generator) :
  Critic.reset_parameters c g = Ok (c', g') ->
  Actor.reset_parameters (as_actor c) g = Ok (as_actor c', g').
Proof.
  rewrite Critic_reset_as_actor. intros H.
  inv_bind H. destruct a as [a g1]. injection H as <- <-.
  rewrite Ha. destruct a; reflexivity.
Qed.

(** What a constructor did, step by step. *)
Lemma Actor_init_inv (i h1 h2 o seed : Z) (g0 g' : Generator) (a : Actor.t) :
  Actor.init i h1 h2 o seed g0 = Ok (a, g') ->
  exists l1 g1 l2 g2 l3 g3 b,
    Linear.init i h1 (manual_seed seed) = Ok (l1, g1) /\
    Linear.init h1 h2 g1 = Ok (l2, g2) /\
    Linear.init h2 o g2 = Ok (l3, g3) /\
    BatchNorm1d.init h1 = Ok b /\
    Actor.reset_parameters (Actor.mk l1 l2 l3 b) g3 = Ok (a, g').
Proof.
  unfold Actor.init, torch_manual_seed. intros H.
  destruct (seed_in_range seed); [| discriminate H]. cbn [bind] in H.
  inv_bind H. destruct a0 as [l1 g1].
  inv_bind H. destruct a0 as [l2 g2].
  inv_bind H. destruct a0 as [l3 g3].
  inv_bind H. rename a0 into b.
  exists l1, g1, l2, g2, l3, g3, b. repeat split; assumption.
Qed.


Lemma Critic_init_inv (i h1 h2 seed : Z) (g0 g' : Generator) (c : Critic.t) :
  Critic.init i h1 h2 seed g0 = Ok (c, g') ->
  exists l1 g1 l2 g2 l3 g3 b,
    Linear.init i h1 (manual_seed seed) = Ok (l1, g1) /\
    Linear.init h1 h2 g1 = Ok (l2, g2) /\
    Linear.init h2 1 g2 = Ok (l3, g3) /\
    BatchNorm1d.init h1 = Ok b /\
    Critic.reset_parameters (Critic.mk l1 l2 l3 b) g3 = Ok (c, g').
Proof.
  unfold Critic.init, torch_manual_seed. intros H.
  destruct (seed_in_range seed); [| discriminate H]. cbn [bind] in H.
  inv_bind H. destruct a as [l1 g1].
  inv_bind H. destruct a as [l2 g2].
  inv_bind H. destruct a as [l3 g3].
  inv_bind H. rename a into b.
  exists l1, g1, l2, g2, l3, g3, b. repeat split; assumption.
Qed.

(** The critic's constructor is the actor's with output width one. *)
Lemma Critic_init_as_actor (i h1 h2 seed : Z) (g0 : Generator) :
  Critic.init i h1 h2 seed g0 =
  ' (a, g') <- Actor.init i h1 h2 1 seed g0 ;; Ok (as_critic a, g').
Proof.
  unfold Critic.init, Actor.init.
  destruct (torch_manual_seed seed) as [gs | e]; [| reflexivity]. cbn [bind].
  destruct (Linear.init i h1 gs) as [[l1 g1] | e]; [| reflexivity]. simpl.
  destruct (Linear.init h1 h2 g1) as [[l2 g2] | e]; [| reflexivity]. simpl.
  destruct (Linear.init h2 1 g2) as [[l3 g3] | e]; [| reflexivity]. simpl.
  destruct (BatchNorm1d.init h1) as [b | e]; [| reflexivity]. simpl.
  apply (Critic_reset_as_actor (Critic.mk l1 l2 l3 b)).
Qed.

Lemma Actor_init_wf (i h1 h2 o seed : Z) (g0 g' : Generator) (a : Actor.t) :
  Actor.init i h1 h2 o seed g0 = Ok (a, g') ->
  Actor.wf a /\
  Linear.in_features (Actor.fc1 a) = i /\
  Linear.out_features (Actor.fc1 a) = h1 /\
  Linear.out_features (Actor.fc2 a) = h2 /\
  Linear.out_features (Actor.fc3 a) = o /\
  BatchNorm1d.training (Actor.bn a) = true.
Proof.
  intros H. apply Actor_init_inv in H.
  destruct H as (l1 & g1 & l2 & g2 & l3 & g3 & b & I1 & I2 & I3 & Ib & Hr).
  apply Linear_init_inv in I1, I2, I3.
  destruct I1 as (W1 & A1 & B1), I2 as (W2 & A2 & B2), I3 as (W3 & A3 & B3).
  apply BatchNorm1d_init_inv in Ib. destruct Ib as (Wb & Nb & Tb).
  assert (W : Actor.wf (Actor.mk l1 l2 l3 b)).
  { unfold Actor.wf. simpl. repeat (split; [assumption |]). repeat split; congruence. }
  split; [exact (Actor_reset_wf _ _ _ _ W Hr) |].
  apply Actor_reset_frame in Hr.
  destruct Hr as (_ & _ & _ & Hbn & F1 & F2 & F3). simpl in *.
  injection F1 as -> ->. injection F2 as _ ->. injection F3 as _ ->.
  rewrite Hbn. auto.
Qed.

Lemma Actor_init_ok (i h1 h2 o seed : Z) (g0 : Generator) :
  seed_in_range seed = true ->
  (0 <= i)%Z -> (0 < h1)%Z -> (0 < h2)%Z -> (0 <= o)%Z ->
  exists a g', Actor.init i h1 h2 o seed g0 = Ok (a, g').
Proof.
  intros Hs Hi P1 P2 Ho. unfold Actor.init.
  rewrite (seed_in_range_ok seed Hs). cbn [bind].
  assert (H1 : (0 <= h1)%Z) by lia. assert (H2 : (0 <= h2)%Z) by lia.
  destruct (Linear_init_ok i h1 (manual_seed seed) Hi H1) as (l1 & g1 & E1).
  destruct (Linear_init_ok h1 h2 g1 H1 H2) as (l2 & g2 & E2).
  destruct (Linear_init_ok h2 o g2 H2 Ho) as (l3 & g3 & E3).
  destruct (BatchNorm1d_init_ok h1 H1) as (b & Eb).
  rewrite E1. simpl. rewrite E2. simpl. rewrite E3. simpl. rewrite Eb. simpl.
  apply Linear_init_inv in E1, E2, E3.
  destruct E1 as (W1 & A1 & B1), E2 as (W2 & A2 & B2), E3 as (W3 & A3 & B3).
  apply BatchNorm1d_init_inv in Eb. destruct Eb as (Wb & Nb & Tb).
  apply Actor_reset_ok.
  - unfold Actor.wf. simpl. repeat (split; [assumption |]). repeat split; congruence.
  - simpl. lia.
  - simpl. lia.
Qed.
End Construction.

Lemma lcg_unit_draws : unit_draws lcg.
Proof.
  intros g. simpl. unfold lcg_next. simpl.
  pose proof (Z.mod_pos_bound g 16 ltac:(lia)) as [Hlo Hhi].
  apply IZR_le in Hlo. apply IZR_lt in Hhi.
  split.
  - apply Rmult_le_reg_r with 16; [lra |].
    unfold Rdiv. rewrite Rmult_assoc, Rinv_l by lra. lra.
  - apply Rmult_lt_reg_r with 16; [lra |].
    unfold Rdiv. rewrite Rmult_assoc, Rinv_l by lra. lra.
Qed.

Lemma as_actor_wf (c : Critic.t) :
  Actor.wf (as_actor c) -> Linear.out_features (Critic.fc3 c) = 1%Z -> Critic.wf c.
Proof.
  intros (W1 & W2 & W3 & Wb & E1 & E2 & E3) Ho.
  unfold Critic.wf. simpl in *. auto 10.
Qed.

Lemma Critic_wf_as_actor (c : Critic.t) : Critic.wf c -> Actor.wf (as_actor c).
Proof.
  intros (W1 & W2 & W3 & Wb & E1 & E2 & E3 & _).
  unfold Actor.wf. simpl. auto 10.
Qed.

Section Networks.
Context {RS : RandomSource}.

Lemma Critic_init_inv_actor (i h1 h2 seed : Z) (g0 g' : Generator) (c : Critic.t) :
  Critic.init i h1 h2 seed g0 = Ok (c, g') ->
  Actor.init i h1 h2 1 seed g0 = Ok (as_actor c, g').
Proof.
  rewrite Critic_init_as_actor. intros H.
  inv_bind H. destruct a as [a g1]. injection H as <- <-.
  rewrite Ha. destruct a; reflexivity.
Qed.

Lemma Critic_init_wf (i h1 h2 seed : Z) (g0 g' : Generator) (c : Critic.t) :
  Critic.init i h1 h2 seed g0 = Ok (c, g') ->
  Critic.wf c /\
  Linear.in_features (Critic.fc1 c) = i /\
  BatchNorm1d.training (Critic.bn c) = true.
Proof.
  intros H. apply Critic_init_inv_actor, Actor_init_wf in H.
  destruct H as (W & Hi & _ & _ & Ho & Ht).
  split; [apply as_actor_wf; assumption |]. auto.
Qed.

Lemma Critic_init_ok (i h1 h2 seed : Z) (g0 : Generator) :
  seed_in_range seed = true ->
  (0 <= i)%Z -> (0 < h1)%Z -> (0 < h2)%Z ->
  exists c g', Critic.init i h1 h2 seed g0 = Ok (c, g').
Proof.
  intros Hs Hi H1 H2. rewrite Critic_init_as_actor.
  destruct (Actor_init_ok i h1 h2 1 seed g0 Hs Hi H1 H2 ltac:(lia)) as (a & g' & E).
  rewrite E. simpl. eauto.
Qed.

Lemma Actor_init_default_members (i h1 h2 o seed : Z) (g0 g' : Generator) (a : Actor.t) :
  Actor.init i h1 h2 o seed g0 = Ok (a, g') -> default_members i h1 h2 o seed a.
Proof.
  intros H. apply Actor_init_inv in H.
  destruct H as (l1 & g1 & l2 & g2 & l3 & g3 & b & I1 & I2 & I3 & Ib & Hr).
  apply Actor_reset_frame in Hr. destruct Hr as (B1 & B2 & B3 & Hbn & _).
  exists l1, g1, l2, g2, l3, g3, b. simpl in *. auto 10.
Qed.


(** C3.  With draws in the unit interval: after [reset_parameters], and so
    after construction, the third layer's weights lie in [-0.003, 0.003]
    and the weights of layers 1 and 2 within [1 / sqrt d] of zero, [d] the
    first size of the layer's own weight tensor.  This holds for actors and
    critics alike, the critic's method being the actor's on the critic's
    members.  On a well-formed network the method returns when layers 1
    and 2 have outputs; when one of them has none, its bound is infinite
    and the method fails. *)
Theorem reset_parameters_ranges :
  unit_draws RS ->
  (forall a g a' g',
      Actor.reset_parameters a g = Ok (a', g') -> initial_ranges a') /\
  (forall c g c' g',
      Critic.reset_parameters c g = Ok (c', g') -> initial_ranges (as_actor c')) /\
  (forall i h1 h2 o seed g0 a g',
      Actor.init i h1 h2 o seed g0 = Ok (a, g') -> initial_ranges a) /\
  (forall i h1 h2 seed g0 c g',
      Critic.init i h1 h2 seed g0 = Ok (c, g') -> initial_ranges (as_actor c)) /\
  (forall c g,
      Critic.reset_parameters c g =
      ' (a, g') <- Actor.reset_parameters (as_actor c) g ;; Ok (as_critic a, g')) /\
  (forall a g,
      Actor.wf a ->
      (0 < Linear.out_features (Actor.fc1 a))%Z ->
      (0 < Linear.out_features (Actor.fc2 a))%Z ->
      exists a' g', Actor.reset_parameters a g = Ok (a', g')) /\
  (forall a g,
      Actor.wf a ->
      Linear.out_features (Actor.fc1 a) = 0%Z \/ Linear.out_features (Actor.fc2 a) = 0%Z ->
      Actor.reset_parameters a g = Err OutOfBounds).
Proof.
  intros Hu.
  assert (HA : forall a g a' g',
             Actor.reset_parameters a g = Ok (a', g') -> initial_ranges a').
  { intros a g a' g'. apply Actor_reset_ranges. exact Hu. }
  assert (HI : forall i h1 h2 o seed g0 a g',
             Actor.init i h1 h2 o seed g0 = Ok (a, g') -> initial_ranges a).
  { intros i h1 h2 o seed g0 a g' H. apply Actor_init_inv in H.
    destruct H as (l1 & g1 & l2 & g2 & l3 & g3 & b & _ & _ & _ & _ & Hr).
    exact (HA _ _ _ _ Hr). }
  split; [exact HA |].
  split; [intros c g c' g' H; apply Critic_reset_inv in H; exact (HA _ _ _ _ H) |].
  split; [exact HI |].
  split; [intros i h1 h2 seed g0 c g' H; apply Critic_init_inv_actor in H;
          exact (HI _ _ _ _ _ _ _ _ H) |].
  split; [exact Critic_reset_as_actor |].
  split; [intros a g; apply Actor_reset_ok | intros a g; apply Actor_reset_zero_width].
Qed.

(** C5.  A constructor's result does not depend on the generator it finds,
    only on its arguments and the seed: two constructions with the same
    arguments and seed give the same network.  Hence in every ensemble the
    local and the target actor are equal parameter by parameter, and so are
    the local and the target critic. *)
Theorem same_seed_same_parameters :
  (forall i h1 h2 o seed g1 g2,
      Actor.init i h1 h2 o seed g1 = Actor.init i h1 h2 o seed g2) /\
  (forall i h1 h2 seed g1 g2,
      Critic.init i h1 h2 seed g1 = Critic.init i h1 h2 seed g2) /\
  (forall n_agents state_size action_size hidden_in_dim hidden_out_dim seed g e g',
      Actor_Critics.init n_agents state_size action_size
                         hidden_in_dim hidden_out_dim seed g = Ok (e, g') ->
      Actor_Critics.actor_local e = Actor_Critics.actor_target e /\
      Actor_Critics.critic_local e = Actor_Critics.critic_target e).
Proof.
  split; [reflexivity |]. split; [reflexivity |].
  intros n s a hi ho seed g e g' H. unfold Actor_Critics.init in H.
  inv_bind H. destruct a0 as [al g1].
  inv_bind H. destruct a0 as [at_ g2].
  inv_bind H. destruct a0 as [cl g3].
  inv_bind H. destruct a0 as [ct g4].
  injection H as <- <-. simpl.
  change (Actor.init s hi ho a seed g1) with (Actor.init s hi ho a seed g) in Ha0.
  change (Critic.init ((s + a) * n) hi ho seed g3)
    with (Critic.init ((s + a) * n) hi ho seed g2) in Ha2.
  split; congruence.
Qed.

(** C8.  [reset_parameters] writes the three weight tensors and nothing
    else of the network: the three biases, the declared widths and the
    whole normalisation stage (scale, shift, running statistics, mode) are
    the same afterwards, for actors and critics.  In a freshly built
    network the biases and the normalisation stage are therefore the ones
    the library's own constructors produced. *)
Theorem reset_parameters_frame :
  (forall a g a' g',
      Actor.reset_parameters a g = Ok (a', g') -> same_frame a a') /\
  (forall c g c' g',
      Critic.reset_parameters c g = Ok (c', g') ->
      same_frame (as_actor c) (as_actor c')) /\
  (forall i h1 h2 o seed g0 a g',
      Actor.init i h1 h2 o seed g0 = Ok (a, g') ->
      default_members i h1 h2 o seed a) /\
  (forall i h1 h2 seed g0 c g',
      Critic.init i h1 h2 seed g0 = Ok (c, g') ->
      default_members i h1 h2 1 seed (as_actor c)).
Proof.
  split; [intros a g a' g'; apply Actor_reset_frame |].
  split; [intros c g c' g' H; apply Critic_reset_inv in H;
          exact (Actor_reset_frame _ _ _ _ H) |].
  split; [intros i h1 h2 o seed g0 a g'; apply Actor_init_default_members |].
  intros i h1 h2 seed g0 c g' H. apply Critic_init_inv_actor in H.
  exact (Actor_init_default_members _ _ _ _ _ _ _ _ H).
Qed.

End Networks.

(** ** [Actor.forward] *)

Lemma promote_last_dim (x : Tensor) : last_dim (size (promote x)) = last_dim (size x).
Proof.
  unfold promote, dim.
  destruct (size x) as [| n [| m s]] eqn:E; simpl; rewrite ?E; try reflexivity.
Qed.

Lemma promote_flat (x : Tensor) (n : nat) :
  size x = [n] -> promote x = mkTensor [1%nat; n] (data x).
Proof. intros E. unfold promote, dim, unsqueeze. rewrite E. reflexivity. Qed.

Lemma promote_rows (x : Tensor) (B n : nat) : size x = [B; n] -> promote x = x.
Proof. intros E. unfold promote, dim. rewrite E. reflexivity. Qed.

Lemma promote_idem (x : Tensor) : promote (promote x) = promote x.
Proof.
  unfold promote at 2 3.
  destruct (dim x =? 1)%nat eqn:E.
  - unfold promote, dim, unsqueeze. simpl.
    apply Nat.eqb_eq in E. unfold dim in E.
    destruct (size x) as [| n [| m s]]; try discriminate. reflexivity.
  - unfold promote. now rewrite E.
Qed.

(** The body of [Actor.forward] sees the promoted input only. *)
Lemma Actor_forward_promote (a : Actor.t) (x : Tensor) :
  Actor.forward a x = Actor.forward a (promote x).
Proof.
  unfold Actor.forward. fold (promote x). fold (promote (promote x)).
  now rewrite promote_idem.
Qed.

Lemma Actor_eta (a : Actor.t) :
  Actor.mk (Actor.fc1 a) (Actor.fc2 a) (Actor.fc3 a) (Actor.bn a) = a.
Proof. destruct a; reflexivity. Qed.

Lemma BatchNorm1d_forward_eval (b b' : BatchNorm1d.t) (x y : Tensor) :
  BatchNorm1d.training b = false ->
  BatchNorm1d.forward b x = Ok (y, b') -> b' = b.
Proof.
  intros Ht. unfold BatchNorm1d.forward. rewrite Ht.
  destruct (BatchNorm1d.view (size x)) as [[[N C] L] |]; [| discriminate].
  destruct (numel (size x) =? 0)%nat; [now intros [= _ <-] |].
  destruct (negb _); [discriminate |]. now intros [= _ <-].
Qed.

(** The stages of [Actor.forward] on [B] rows of the right width. *)
Lemma Actor_forward_stages (a : Actor.t) (x : Tensor) (B : nat) :
  Actor.wf a ->
  size (promote x) = [B; Z.to_nat (Linear.in_features (Actor.fc1 a))] ->
  BatchNorm1d.training (Actor.bn a) = false \/ B <> 1%nat ->
  exists h1 h2 bn' h3 h4,
    Linear.forward (Actor.fc1 a) (promote x) = Ok h1 /\
    BatchNorm1d.forward (Actor.bn a) (relu h1) = Ok (h2, bn') /\
    Linear.forward (Actor.fc2 a) h2 = Ok h3 /\
    Linear.forward (Actor.fc3 a) (relu h3) = Ok h4 /\
    Actor.forward a x
      = Ok (tanh_ h4, Actor.mk (Actor.fc1 a) (Actor.fc2 a) (Actor.fc3 a) bn') /\
    size (tanh_ h4) = [B; Z.to_nat (Linear.out_features (Actor.fc3 a))] /\
    Tensor_wf (tanh_ h4).
Proof.
  intros (W1 & W2 & W3 & Wb & E1 & E2 & E3) Hx Hmode.
  destruct (Linear_forward_ok (Actor.fc1 a) (promote x) [B] W1 Hx)
    as (h1 & F1 & S1 & _).
  rewrite E1 in S1.
  destruct (BatchNorm1d_forward_ok (Actor.bn a) (relu h1) B S1 Hmode)
    as (h2 & bn' & Fb & S2 & _).
  rewrite relu_size, S1, <- E1, <- E2 in S2.
  destruct (Linear_forward_ok (Actor.fc2 a) h2 [B] W2 S2) as (h3 & F2 & S3 & _).
  rewrite <- E3 in S3. rewrite <- relu_size in S3.
  destruct (Linear_forward_ok (Actor.fc3 a) (relu h3) [B] W3 S3)
    as (h4 & F3 & S4 & W4).
  exists h1, h2, bn', h3, h4.
  repeat (split; [assumption |]).
  split; [| split; [exact S4 | apply tanh_wf; exact W4]].
  rewrite Actor_forward_promote. unfold Actor.forward.
  fold (promote (promote x)). rewrite promote_idem.
  rewrite F1. cbn [bind]. rewrite Fb. cbn [bind]. rewrite F2. cbn [bind].
  rewrite F3. reflexivity.
Qed.

(** In training mode a single row stops in the normalisation stage. *)
Lemma Actor_forward_single_row (a : Actor.t) (x : Tensor) :
  Actor.wf a ->
  size (promote x) = [1%nat; Z.to_nat (Linear.in_features (Actor.fc1 a))] ->
  BatchNorm1d.training (Actor.bn a) = true ->
  Actor.forward a x = Err ValueError.
Proof.
  intros (W1 & _) Hx Ht.
  destruct (Linear_forward_ok (Actor.fc1 a) (promote x) [1%nat] W1 Hx)
    as (h1 & F1 & S1 & _).
  rewrite Actor_forward_promote. unfold Actor.forward.
  fold (promote (promote x)). rewrite promote_idem, F1. cbn [bind].
  rewrite (BatchNorm1d_forward_single (Actor.bn a) (relu h1) _ S1 Ht). reflexivity.
Qed.


(** C6 (as amended).  A flat vector of length [n] is promoted to one row
    before anything is computed, so it has the outcome of the same values
    given as a [(1, n)] tensor.  With [n = input_dim], both produce an
    output of size [(1, output_dim)] when the actor is in evaluation mode
    (and leave the actor as it was); in training mode both are refused by
    the normalisation stage. *)
Theorem Actor_forward_flat_vector (a : Actor.t) (x : Tensor) (n : nat) :
  Actor.wf a ->
  size x = [n] ->
  promote x = mkTensor [1%nat; n] (data x) /\
  Actor.forward a x = Actor.forward a (mkTensor [1%nat; n] (data x)) /\
  (n = Z.to_nat (Linear.in_features (Actor.fc1 a)) ->
   BatchNorm1d.training (Actor.bn a) = false ->
   exists y, Actor.forward a x = Ok (y, a) /\
             size y = [1%nat; Z.to_nat (Linear.out_features (Actor.fc3 a))] /\
             Tensor_wf y) /\
  (n = Z.to_nat (Linear.in_features (Actor.fc1 a)) ->
   BatchNorm1d.training (Actor.bn a) = true ->
   Actor.forward a x = Err ValueError).
Proof.
  intros W Hx. pose proof (promote_flat x n Hx) as Hp.
  split; [exact Hp |].
  split; [rewrite Actor_forward_promote, Hp; reflexivity |].
  split.
  - intros -> Ht.
    assert (Hs : size (promote x)
                 = [1%nat; Z.to_nat (Linear.in_features (Actor.fc1 a))])
      by now rewrite Hp.
    destruct (Actor_forward_stages a x 1 W Hs (or_introl Ht))
      as (h1 & h2 & bn' & h3 & h4 & F1 & Fb & F2 & F3 & F & S & Wy).
    apply (BatchNorm1d_forward_eval _ _ _ _ Ht) in Fb. subst bn'.
    rewrite Actor_eta in F. eauto.
  - intros -> Ht. apply Actor_forward_single_row; [exact W | | exact Ht].
    now rewrite Hp.
Qed.

(** ** Concatenation *)

Lemma cat_rows (s a : Tensor) (B n m : nat) :
  size s = [B; n] -> size a = [B; m] ->
  cat (s, a) 1 = Ok (mkTensor [B; (n + m)%nat] (joined_rows B n m s a)).
Proof.
  intros Hs Ha. unfold cat, cat_should_skip, dim, cat_size, joined_rows.
  rewrite Hs, Ha. simpl. rewrite Nat.eqb_refl. simpl.
  rewrite !Nat.mul_1_r. destruct B; reflexivity.
Qed.

Lemma cat_batch_mismatch (s a : Tensor) (B1 B2 n m : nat) :
  size s = [B1; n] -> size a = [B2; m] -> B1 <> B2 ->
  cat (s, a) 1 = Err DimensionMismatch.
Proof.
  intros Hs Ha Hne. unfold cat, cat_should_skip, dim.
  rewrite Hs, Ha. simpl.
  destruct (Nat.eqb_spec B1 B2); [contradiction |].
  destruct B1, B2; reflexivity.
Qed.

Lemma cat_flat (s a : Tensor) :
  dim s = 1%nat -> dim a = 1%nat ->
  size s <> [O] \/ size a <> [O] ->
  cat (s, a) 1 = Err IndexError.
Proof.
  unfold dim, cat, cat_should_skip, dim. intros Hs Ha Hne.
  destruct (size s) as [| k [| ? ?]]; try discriminate.
  destruct (size a) as [| j [| ? ?]]; try discriminate.
  destruct k as [| k], j as [| j]; simpl; try reflexivity.
  destruct Hne as [H | H]; now elim H.
Qed.

Lemma cat_empty_vectors (s a : Tensor) :
  size s = [O] -> size a = [O] -> cat (s, a) 1 = Ok empty_vector.
Proof.
  intros Hs Ha. unfold cat, cat_should_skip. now rewrite Hs, Ha.
Qed.

(** ** [Critic.forward] *)

(** A one-dimensional tensor never gets through the first two stages. *)
Lemma Critic_forward_flat_refused (c : Critic.t) (state action xs : Tensor) :
  cat (state, action) 1 = Ok xs -> dim xs = 1%nat ->
  exists e, Critic.forward c state action = Err e.
Proof.
  intros Hc Hd. unfold Critic.forward. rewrite Hc. cbn [bind].
  destruct (Linear.forward (Critic.fc1 c) xs) as [h | e] eqn:F;
    [| eexists; reflexivity].
  cbn [bind]. apply Linear_forward_rank in F.
  destruct (BatchNorm1d.forward (Critic.bn c) (relu h)) as [[y b'] | e] eqn:Fb;
    [| eexists; reflexivity].
  apply BatchNorm1d_forward_rank in Fb. unfold dim in *.
  rewrite relu_size in Fb. lia.
Qed.

Lemma Critic_forward_stages (c : Critic.t) (state action : Tensor) (B n m : nat) :
  Critic.wf c ->
  size state = [B; n] -> size action = [B; m] ->
  (n + m)%nat = Z.to_nat (Linear.in_features (Critic.fc1 c)) ->
  BatchNorm1d.training (Critic.bn c) = false \/ B <> 1%nat ->
  exists xs h1 h2 bn' h3 y,
    cat (state, action) 1 = Ok xs /\
    size xs = [B; (n + m)%nat] /\
    data xs = joined_rows B n m state action /\
    Linear.forward (Critic.fc1 c) xs = Ok h1 /\
    BatchNorm1d.forward (Critic.bn c) (relu h1) = Ok (h2, bn') /\
    Linear.forward (Critic.fc2 c) h2 = Ok h3 /\
    Linear.forward (Critic.fc3 c) (relu h3) = Ok y /\
    Critic.forward c state action
      = Ok (y, Critic.mk (Critic.fc1 c) (Critic.fc2 c) (Critic.fc3 c) bn') /\
    size y = [B; 1%nat] /\
    Tensor_wf y.
Proof.
  intros (W1 & W2 & W3 & Wb & E1 & E2 & E3 & E4) Hs Ha Hw Hmode.
  pose proof (cat_rows state action B n m Hs Ha) as Hc.
  set (xs := mkTensor [B; (n + m)%nat] (joined_rows B n m state action)) in *.
  assert (Hx : size xs = [B] ++ [Z.to_nat (Linear.in_features (Critic.fc1 c))])
    by (simpl; now rewrite Hw).
  destruct (Linear_forward_ok (Critic.fc1 c) xs [B] W1 Hx) as (h1 & F1 & S1 & _).
  rewrite E1 in S1.
  destruct (BatchNorm1d_forward_ok (Critic.bn c) (relu h1) B S1 Hmode)
    as (h2 & bn' & Fb & S2 & _).
  rewrite relu_size, S1, <- E1, <- E2 in S2.
  destruct (Linear_forward_ok (Critic.fc2 c) h2 [B] W2 S2) as (h3 & F2 & S3 & _).
  rewrite <- E3 in S3. rewrite <- relu_size in S3.
  destruct (Linear_forward_ok (Critic.fc3 c) (relu h3) [B] W3 S3)
    as (y & F3 & S4 & W4).
  rewrite E4 in S4.
  exists xs, h1, h2, bn', h3, y.
  split; [exact Hc |]. split; [reflexivity |]. split; [reflexivity |].
  repeat (split; [assumption |]).
  split; [| split; [exact S4 | exact W4]].
  unfold Critic.forward. rewrite Hc. cbn [bind].
  rewrite F1. cbn [bind]. rewrite Fb. cbn [bind]. rewrite F2. cbn [bind].
  rewrite F3. reflexivity.
Qed.

Lemma constant_critic_output (v : R) :
  Critic.wf (constant_critic v) /\
  Critic.forward (constant_critic v)
                 (mkTensor [1%nat; 1%nat] [0]) (mkTensor [1%nat; 1%nat] [0])
  = Ok (mkTensor [1%nat; 1%nat] [v], constant_critic v).
Proof.
  split.
  - unfold Critic.wf, Linear.wf, BatchNorm1d.wf, Tensor_wf. simpl.
    repeat split; lia.
  - unfold Critic.forward, constant_critic.
    cbv - [Rplus Rmult Rminus Rdiv Rmax sqrt IZR Ropp Rinv].
    do 4 f_equal. ring.
Qed.

(** C7 (as amended).  Given a state of size [(B, n)] and an action of size
    [(B, m)] with [n + m = input_dim], a critic that is in evaluation mode,
    or is given a number of rows other than one, returns: the two inputs
    are joined row by row, and the result is the output of layer 3 itself
    (no activation follows it), of size [(B, 1)].  No range binds the
    result: every real number is the output of some critic. *)
Theorem Critic_forward_shape (c : Critic.t) (state action : Tensor) (B n m : nat) :
  Critic.wf c ->
  size state = [B; n] -> size action = [B; m] ->
  (n + m)%nat = Z.to_nat (Linear.in_features (Critic.fc1 c)) ->
  BatchNorm1d.training (Critic.bn c) = false \/ B <> 1%nat ->
  (exists xs h1 h2 bn' h3 y,
    cat (state, action) 1 = Ok xs /\
    size xs = [B; (n + m)%nat] /\
    data xs = joined_rows B n m state action /\
    Linear.forward (Critic.fc1 c) xs = Ok h1 /\
    BatchNorm1d.forward (Critic.bn c) (relu h1) = Ok (h2, bn') /\
    Linear.forward (Critic.fc2 c) h2 = Ok h3 /\
    Linear.forward (Critic.fc3 c) (relu h3) = Ok y /\
    Critic.forward c state action
      = Ok (y, Critic.mk (Critic.fc1 c) (Critic.fc2 c) (Critic.fc3 c) bn') /\
    size y = [B; 1%nat] /\
    Tensor_wf y) /\
  (forall v : R,
      exists c0 s0 a0 c1,
        Critic.wf c0 /\ size s0 = [1%nat; 1%nat] /\ size a0 = [1%nat; 1%nat] /\
        Critic.forward c0 s0 a0 = Ok (mkTensor [1%nat; 1%nat] [v], c1)).
Proof.
  intros W Hs Ha Hw Hmode. split.
  - exact (Critic_forward_stages c state action B n m W Hs Ha Hw Hmode).
  - intros v. destruct (constant_critic_output v) as [Wv Fv].
    exists (constant_critic v), (mkTensor [1%nat; 1%nat] [0]),
           (mkTensor [1%nat; 1%nat] [0]), (constant_critic v).
    auto.
Qed.

(** C9.  An input whose last size is not [input_dim] makes
    [Actor.forward] fail with a dimension mismatch, which is the result
    the caller gets: nothing is cut or padded.  [Critic.forward] fails the
    same way when state and action have different numbers of rows, and
    when their joint width is not the critic's [input_dim]. *)
Theorem forward_dimension_mismatch :
  (forall a x,
      Actor.wf a ->
      last_dim (size x) <> Some (Z.to_nat (Linear.in_features (Actor.fc1 a))) ->
      Actor.forward a x = Err DimensionMismatch) /\
  (forall c state action B1 B2 n m,
      size state = [B1; n] -> size action = [B2; m] -> B1 <> B2 ->
      Critic.forward c state action = Err DimensionMismatch) /\
  (forall c state action B n m,
      Critic.wf c ->
      size state = [B; n] -> size action = [B; m] ->
      (n + m)%nat <> Z.to_nat (Linear.in_features (Critic.fc1 c)) ->
      Critic.forward c state action = Err DimensionMismatch).
Proof.
  split; [| split].
  - intros a x (W1 & _) Hx.
    rewrite Actor_forward_promote. unfold Actor.forward.
    fold (promote (promote x)). rewrite promote_idem.
    rewrite (Linear_forward_mismatch _ _ W1); [reflexivity |].
    now rewrite promote_last_dim.
  - intros c state action B1 B2 n m Hs Ha Hne.
    unfold Critic.forward.
    now rewrite (cat_batch_mismatch _ _ _ _ _ _ Hs Ha Hne).
  - intros c state action B n m (W1 & _) Hs Ha Hne.
    unfold Critic.forward. rewrite (cat_rows _ _ _ _ _ Hs Ha). cbn [bind].
    rewrite (Linear_forward_mismatch _ _ W1); [reflexivity |].
    unfold last_dim. simpl. congruence.
Qed.

(** C10 (as amended).  [Critic.forward] promotes nothing: with a
    one-dimensional state and a one-dimensional action it never produces a
    result.  Whenever one of the two has at least one element it fails in
    the concatenation, whose axis 1 is out of range; when both are the
    empty vector the concatenation skips them and returns the empty
    vector, and the failure comes from a later stage.  The same values
    given as single rows are accepted by a critic in evaluation mode. *)
Theorem Critic_forward_flat_vectors (c : Critic.t) (state action : Tensor) :
  dim state = 1%nat -> dim action = 1%nat ->
  (exists e, Critic.forward c state action = Err e) /\
  (size state <> [O] \/ size action <> [O] ->
   cat (state, action) 1 = Err IndexError /\
   Critic.forward c state action = Err IndexError) /\
  (size state = [O] -> size action = [O] ->
   cat (state, action) 1 = Ok empty_vector) /\
  (forall n m,
      Critic.wf c -> BatchNorm1d.training (Critic.bn c) = false ->
      size state = [n] -> size action = [m] ->
      (n + m)%nat = Z.to_nat (Linear.in_features (Critic.fc1 c)) ->
      exists y, Critic.forward c (unsqueeze state 0) (unsqueeze action 0) = Ok (y, c) /\
                size y = [1%nat; 1%nat]).
Proof.
  intros Hs Ha.
  assert (Hflat : size state <> [O] \/ size action <> [O] ->
                  cat (state, action) 1 = Err IndexError /\
                  Critic.forward c state action = Err IndexError).
  { intros Hne. pose proof (cat_flat state action Hs Ha Hne) as Hc.
    split; [exact Hc |]. unfold Critic.forward. now rewrite Hc. }
  split; [| split; [exact Hflat | split]].
  - destruct (list_eq_dec Nat.eq_dec (size state) [O]) as [E1 | N1].
    + destruct (list_eq_dec Nat.eq_dec (size action) [O]) as [E2 | N2].
      * apply (Critic_forward_flat_refused c state action empty_vector).
        -- now apply cat_empty_vectors.
        -- reflexivity.
      * exists IndexError. apply Hflat. now right.
    + exists IndexError. apply Hflat. now left.
  - apply cat_empty_vectors.
  - intros n m W Ht Hn Hm Hw.
    assert (Hs' : size (unsqueeze state 0) = [1%nat; n])
      by (unfold unsqueeze; simpl; now rewrite Hn).
    assert (Ha' : size (unsqueeze action 0) = [1%nat; m])
      by (unfold unsqueeze; simpl; now rewrite Hm).
    destruct (Critic_forward_stages c _ _ 1 n m W Hs' Ha' Hw (or_introl Ht))
      as (xs & h1 & h2 & bn' & h3 & y & _ & _ & _ & _ & Fb & _ & _ & F & S & _).
    apply (BatchNorm1d_forward_eval _ _ _ _ Ht) in Fb. subst bn'.
    exists y. split; [| exact S]. rewrite F. destruct c; reflexivity.
Qed.

(** ** The mode switch keeps a network well formed *)

Lemma Actor_train_wf (a : Actor.t) (mode : bool) :
  Actor.wf a -> Actor.wf (Actor.train a mode).
Proof.
  intros (W1 & W2 & W3 & Wb & E1 & E2 & E3).
  unfold Actor.wf, Actor.train, BatchNorm1d.wf in *. simpl. auto 10.
Qed.

Lemma Critic_train_wf (c : Critic.t) (mode : bool) :
  Critic.wf c -> Critic.wf (Critic.train c mode).
Proof.
  intros (W1 & W2 & W3 & Wb & E1 & E2 & E3 & E4).
  unfold Critic.wf, Critic.train, BatchNorm1d.wf in *. simpl. auto 10.
Qed.

(** * The properties at work on concrete networks

    The networks below are built by the constructors themselves, run with
    the sixteen-state generator [lcg]. *)




(** C3 with the generator [lcg]. *)
Lemma reset_parameters_ranges_witness :
  unit_draws lcg /\
  exists a g',
    @Actor.init lcg 2 2 2 1 0 7%Z = Ok (a, g') /\
    within (-0.003) 0.003 (Linear.weight (Actor.fc3 a)) /\
    within (- (1 / sqrt (INR 2))) (1 / sqrt (INR 2)) (Linear.weight (Actor.fc1 a)).
Proof.
  split; [exact lcg_unit_draws |].
  eexists. eexists.
  assert (Hi : @Actor.init lcg 2 2 2 1 0 7%Z = Ok (?[a], ?[g])) by reflexivity.
  split; [exact Hi |].
  destruct (@reset_parameters_ranges lcg lcg_unit_draws) as (_ & _ & HI & _).
  destruct (HI _ _ _ _ _ _ _ _ Hi) as (R1 & _ & R3).
  split; [exact R3 |].
  apply (R1 2%nat [2%nat]). reflexivity.
Defined.

(** C5 on a small ensemble. *)
Lemma same_seed_same_parameters_witness :
  exists e g',
    @Actor_Critics.init lcg 2 2 1 2 2 0 7%Z = Ok (e, g') /\
    Actor_Critics.actor_local e = Actor_Critics.actor_target e /\
    Actor_Critics.critic_local e = Actor_Critics.critic_target e.
Proof.
  eexists. eexists.
  assert (Hi : @Actor_Critics.init lcg 2 2 1 2 2 0 7%Z = Ok (?[e], ?[g]))
    by reflexivity.
  split; [exact Hi |].
  destruct (@same_seed_same_parameters lcg) as (_ & _ & H).
  exact (H _ _ _ _ _ _ _ _ _ Hi).
Defined.

(** C6 in evaluation mode. *)
Lemma Actor_forward_flat_vector_witness :
  exists a g' y,
    @Actor.init lcg 2 2 2 1 0 7%Z = Ok (a, g') /\
    Actor.forward (Actor.train a false) (mkTensor [2%nat] [0.5; -0.5])
      = Ok (y, Actor.train a false) /\
    size y = [1%nat; 1%nat] /\
    Actor.forward (Actor.train a false) (mkTensor [2%nat] [0.5; -0.5])
      = Actor.forward (Actor.train a false) (mkTensor [1%nat; 2%nat] [0.5; -0.5]).
Proof.
  eexists. eexists.
  assert (Hi : @Actor.init lcg 2 2 2 1 0 7%Z = Ok (?[a], ?[g])) by reflexivity.
  pose proof (Actor_init_wf _ _ _ _ _ _ _ _ Hi) as (W & _).
  destruct (Actor_forward_flat_vector _ (mkTensor [2%nat] [0.5; -0.5]) 2
              (Actor_train_wf _ false W) eq_refl)
    as (_ & Hsame & Heval & _).
  destruct Heval as (y & F & S & _); [reflexivity | reflexivity |].
  exists y. split; [exact Hi |]. split; [exact F |]. split; [exact S | exact Hsame].
Defined.

(** C6, the claim as first stated, fails here: the freshly built actor
    refuses the flat vector and the one-row tensor alike. *)
Lemma Actor_forward_flat_vector_refused :
  exists a g',
    @Actor.init lcg 2 2 2 1 0 7%Z = Ok (a, g') /\
    Actor.wf a /\
    Z.to_nat (Linear.in_features (Actor.fc1 a)) = 2%nat /\
    Actor.forward a (mkTensor [2%nat] [0.5; -0.5]) = Err ValueError /\
    Actor.forward a (mkTensor [1%nat; 2%nat] [0.5; -0.5]) = Err ValueError.
Proof.
  eexists. eexists.
  assert (Hi : @Actor.init lcg 2 2 2 1 0 7%Z = Ok (?[a], ?[g])) by reflexivity.
  split; [exact Hi |].
  split; [exact (proj1 (Actor_init_wf _ _ _ _ _ _ _ _ Hi)) |].
  repeat split; reflexivity.
Qed.

(** C7 on two rows, in training mode. *)
Lemma Critic_forward_shape_witness :
  exists c g' y c',
    @Critic.init lcg 2 2 2 0 7%Z = Ok (c, g') /\
    Critic.forward c (mkTensor [2%nat; 1%nat] [0.5; 4])
                     (mkTensor [2%nat; 1%nat] [-0.5; 8]) = Ok (y, c') /\
    size y = [2%nat; 1%nat].
Proof.
  eexists. eexists.
  assert (Hi : @Critic.init lcg 2 2 2 0 7%Z = Ok (?[c], ?[g])) by reflexivity.
  pose proof (Critic_init_wf _ _ _ _ _ _ _ Hi) as (W & _).
  destruct (Critic_forward_shape _
              (mkTensor [2%nat; 1%nat] [0.5; 4])
              (mkTensor [2%nat; 1%nat] [-0.5; 8]) 2 1 1 W eq_refl eq_refl)
    as ((xs & h1 & h2 & bn' & h3 & y & _ & _ & _ & _ & _ & _ & _ & F & S & _) & _).
  - reflexivity.
  - right. discriminate.
  - eexists. eexists. split; [exact Hi |]. split; [exact F | exact S].
Defined.

(** C7, the claim as first stated, fails here: a freshly built critic given
    one state row and one action row of fitting widths. *)
Lemma Critic_forward_single_row_refused :
  exists c g',
    @Critic.init lcg 2 2 2 0 7%Z = Ok (c, g') /\
    Critic.wf c /\
    Z.to_nat (Linear.in_features (Critic.fc1 c)) = (1 + 1)%nat /\
    Critic.forward c (mkTensor [1%nat; 1%nat] [0.5])
                     (mkTensor [1%nat; 1%nat] [-0.5]) = Err ValueError.
Proof.
  eexists. eexists.
  assert (Hi : @Critic.init lcg 2 2 2 0 7%Z = Ok (?[c], ?[g])) by reflexivity.
  split; [exact Hi |].
  split; [exact (proj1 (Critic_init_wf _ _ _ _ _ _ _ Hi)) |].
  split; reflexivity.
Qed.

(** C8 on a small actor: resetting it again moves no bias and leaves the
    normalisation stage alone. *)
Lemma reset_parameters_frame_witness :
  exists a g' a' g'',
    @Actor.init lcg 2 2 2 1 0 7%Z = Ok (a, g') /\
    @Actor.reset_parameters lcg a g' = Ok (a', g'') /\
    Linear.bias (Actor.fc1 a') = Linear.bias (Actor.fc1 a) /\
    Linear.bias (Actor.fc2 a') = Linear.bias (Actor.fc2 a) /\
    Linear.bias (Actor.fc3 a') = Linear.bias (Actor.fc3 a) /\
    Actor.bn a' = Actor.bn a.
Proof.
  eexists. eexists. eexists. eexists.
  assert (Hi : @Actor.init lcg 2 2 2 1 0 7%Z = Ok (?[a], ?[g])) by reflexivity.
  match type of Hi with
  | _ = Ok (?a0, ?g0) =>
      assert (Hr : @Actor.reset_parameters lcg a0 g0 = Ok (?[a'], ?[g'']))
        by reflexivity
  end.
  split; [exact Hi |]. split; [exact Hr |].
  destruct (@reset_parameters_frame lcg) as (HF & _).
  destruct (HF _ _ _ _ Hr) as (B1 & B2 & B3 & Hb & _).
  repeat split; assumption.
Defined.

(** C9 on a small actor and a small critic. *)
Lemma forward_dimension_mismatch_witness :
  exists a c g1 g2,
    @Actor.init lcg 2 2 2 1 0 7%Z = Ok (a, g1) /\
    @Critic.init lcg 2 2 2 0 7%Z = Ok (c, g2) /\
    Actor.forward a (mkTensor [2%nat; 3%nat] [1; 2; 3; 4; 5; 6])
      = Err DimensionMismatch /\
    Actor.forward a (mkTensor [3%nat] [1; 2; 3]) = Err DimensionMismatch /\
    Critic.forward c (mkTensor [2%nat; 1%nat] [1; 2])
                     (mkTensor [3%nat; 1%nat] [1; 2; 3]) = Err DimensionMismatch /\
    Critic.forward c (mkTensor [2%nat; 2%nat] [1; 2; 3; 4])
                     (mkTensor [2%nat; 1%nat] [1; 2]) = Err DimensionMismatch.
Proof.
  eexists. eexists. eexists. eexists.
  assert (Hi : @Actor.init lcg 2 2 2 1 0 7%Z = Ok (?[a], ?[g1])) by reflexivity.
  assert (Hc : @Critic.init lcg 2 2 2 0 7%Z = Ok (?[c], ?[g2])) by reflexivity.
  pose proof (Actor_init_wf _ _ _ _ _ _ _ _ Hi) as (Wa & _).
  pose proof (Critic_init_wf _ _ _ _ _ _ _ Hc) as (Wc & _).
  destruct forward_dimension_mismatch as (HA & HB & HW).
  split; [exact Hi |]. split; [exact Hc |].
  split; [apply (HA _ _ Wa); discriminate |].
  split; [apply (HA _ _ Wa); discriminate |].
  split; [apply HB with (B1 := 2%nat) (B2 := 3%nat) (n := 1%nat) (m := 1%nat);
          [reflexivity | reflexivity | discriminate] |].
  apply HW with (B := 2%nat) (n := 2%nat) (m := 1%nat);
    [exact Wc | reflexivity | reflexivity |].
  intros H. lazy in H. discriminate H.
Defined.

(** C10 on two flat vectors of one element each. *)
Lemma Critic_forward_flat_vectors_witness :
  exists c g',
    @Critic.init lcg 2 2 2 0 7%Z = Ok (c, g') /\
    Critic.forward c (mkTensor [1%nat] [0.5]) (mkTensor [1%nat] [-0.5])
      = Err IndexError /\
    exists y,
      Critic.forward (Critic.train c false)
                     (unsqueeze (mkTensor [1%nat] [0.5]) 0)
                     (unsqueeze (mkTensor [1%nat] [-0.5]) 0)
      = Ok (y, Critic.train c false) /\
      size y = [1%nat; 1%nat].
Proof.
  eexists. eexists.
  assert (Hi : @Critic.init lcg 2 2 2 0 7%Z = Ok (?[c], ?[g])) by reflexivity.
  pose proof (Critic_init_wf _ _ _ _ _ _ _ Hi) as (W & _).
  match type of Hi with
  | _ = Ok (?c0, _) =>
      pose proof (Critic_forward_flat_vectors c0
                    (mkTensor [1%nat] [0.5]) (mkTensor [1%nat] [-0.5])
                    eq_refl eq_refl) as (_ & H1 & _);
      pose proof (Critic_forward_flat_vectors (Critic.train c0 false)
                    (mkTensor [1%nat] [0.5]) (mkTensor [1%nat] [-0.5])
                    eq_refl eq_refl) as (_ & _ & _ & H2)
  end.
  split; [exact Hi |]. split.
  - apply H1. left. discriminate.
  - apply (H2 1%nat 1%nat (Critic_train_wf _ false W)); reflexivity.
Defined.

(** C10, the claim as first stated, fails here: on two empty vectors the
    concatenation returns (the failure comes from layer 1), and an empty
    vector as state next to a two-dimensional action is skipped, so that a
    result is produced although one input is one-dimensional. *)
Lemma Critic_forward_empty_vectors :
  exists c g' y,
    @Critic.init lcg 2 2 2 0 7%Z = Ok (c, g') /\
    dim empty_vector = 1%nat /\
    cat (empty_vector, empty_vector) 1 = Ok empty_vector /\
    Critic.forward c empty_vector empty_vector = Err DimensionMismatch /\
    Critic.forward (Critic.train c false) empty_vector
                   (mkTensor [1%nat; 2%nat] [0.5; -0.5])
      = Ok (y, Critic.train c false) /\
    size y = [1%nat; 1%nat].
Proof.
  eexists. eexists. eexists.
  assert (Hi : @Critic.init lcg 2 2 2 0 7%Z = Ok (?[c], ?[g])) by reflexivity.
  split; [exact Hi |].
  repeat split; reflexivity.
Qed.

(** * Further properties of the code *)
(** ** Rows *)

Lemma firstn_app_exact {A : Type} (l1 l2 : list A) :
  firstn (length l1) (l1 ++ l2) = l1.
Proof.
  rewrite firstn_app, Nat.sub_diag, firstn_all. simpl. apply app_nil_r.
Qed.

Lemma skipn_app_exact {A : Type} (l1 l2 : list A) :
  skipn (length l1) (l1 ++ l2) = l2.
Proof.
  rewrite skipn_app, Nat.sub_diag, skipn_all. reflexivity.
Qed.

Lemma rows_flat_map {A : Type} (g : A -> list R) (k : nat) (l : list A) :
  (forall r, length (g r) = k) ->
  rows (length l) k (flat_map g l) = map g l.
Proof.
  intros Hg. induction l as [| r l IH]; simpl; [reflexivity |].
  assert (E1 : firstn k (g r ++ flat_map g l) = g r)
    by (rewrite <- (Hg r); apply firstn_app_exact).
  assert (E2 : skipn k (g r ++ flat_map g l) = flat_map g l)
    by (rewrite <- (Hg r); apply skipn_app_exact).
  now rewrite E1, E2, IH.
Qed.

Lemma rows_concat (k : nat) (l : list (list R)) :
  Forall (fun r => length r = k) l ->
  rows (length l) k (concat l) = l.
Proof.
  induction 1 as [| r l Hr _ IH]; simpl; [reflexivity |].
  subst k. now rewrite firstn_app_exact, skipn_app_exact, IH.
Qed.

Lemma rows_short (n k : nat) (d : list R) :
  Forall (fun r => (length r <= k)%nat) (rows n k d).
Proof.
  revert d. induction n as [| n IH]; intros d; simpl; constructor.
  - apply firstn_le_length.
  - apply IH.
Qed.

Lemma rows_full (n k : nat) (d : list R) :
  length d = (n * k)%nat -> Forall (fun r => length r = k) (rows n k d).
Proof.
  revert d. induction n as [| n IH]; intros d Hd; simpl; constructor.
  - rewrite length_firstn. simpl in Hd. lia.
  - apply IH. rewrite length_skipn. simpl in Hd. lia.
Qed.

Lemma rows_one (k : nat) (r : list R) :
  (length r <= k)%nat -> rows 1 k r = [r].
Proof. intros H. simpl. now rewrite firstn_all2. Qed.

Lemma map_flat_map {A B C : Type} (f : B -> C) (g : A -> list B) (l : list A) :
  map f (flat_map g l) = flat_map (fun r => map f (g r)) l.
Proof.
  induction l as [| r l IH]; simpl; [reflexivity |].
  now rewrite map_app, IH.
Qed.

Lemma flat_map_map {A B C : Type} (f : B -> list C) (g : A -> B) (l : list A) :
  flat_map f (map g l) = flat_map (fun r => f (g r)) l.
Proof.
  induction l as [| r l IH]; simpl; [reflexivity |]. now rewrite IH.
Qed.

Lemma nth_map_rows {A : Type} (F : A -> list R) (l : list A) (d : A) (i : nat) :
  (i < length l)%nat -> nth i (map F l) [] = F (nth i l d).
Proof.
  intros Hi. rewrite <- (map_nth F l d i).
  apply nth_indep. now rewrite length_map.
Qed.

(** ** The normalisation stage, row by row *)

Lemma channel_shift (C s : nat) :
  BatchNorm1d.channel C 1 (s + C) = BatchNorm1d.channel C 1 s.
Proof.
  unfold BatchNorm1d.channel. rewrite !Nat.div_1_r.
  rewrite <- (Nat.mul_1_l C) at 1. apply Nat.Div0.mod_add.
Qed.

Section NormalizeRows.
Variables (b : BatchNorm1d.t) (C : nat) (m v : list R).

Let cell (p : nat * R) : R :=
  (snd p - nth (BatchNorm1d.channel C 1 (fst p)) m 0)
  / sqrt (nth (BatchNorm1d.channel C 1 (fst p)) v 0 + BatchNorm1d.eps b)
  * nth (BatchNorm1d.channel C 1 (fst p)) (data (BatchNorm1d.weight b)) 0
  + nth (BatchNorm1d.channel C 1 (fst p)) (data (BatchNorm1d.bias b)) 0.

Let norm_at (s : nat) (d : list R) : list R :=
  map cell (combine (seq s (length d)) d).

Lemma normalize_norm_at (d : list R) :
  BatchNorm1d.normalize b C 1 m v d = norm_at 0 d.
Proof. reflexivity. Qed.

Lemma norm_at_app (s : nat) (d1 d2 : list R) :
  norm_at s (d1 ++ d2) = norm_at s d1 ++ norm_at (s + length d1) d2.
Proof.
  unfold norm_at. revert s. induction d1 as [| x d1 IH]; intros s; simpl.
  - now rewrite Nat.add_0_r.
  - f_equal. rewrite IH. now rewrite Nat.add_succ_r.
Qed.

Lemma norm_at_shift (s : nat) (d : list R) :
  norm_at (s + C) d = norm_at s d.
Proof.
  unfold norm_at. revert s. induction d as [| x d IH]; intros s; simpl.
  - reflexivity.
  - f_equal.
    + unfold cell. simpl. now rewrite channel_shift.
    + apply (IH (S s)).
Qed.

Lemma norm_at_multiple (q : nat) (d : list R) :
  norm_at (q * C) d = norm_at 0 d.
Proof.
  induction q as [| q IH]; [reflexivity |].
  simpl. rewrite Nat.add_comm. now rewrite norm_at_shift.
Qed.

Lemma norm_at_flat_map {A : Type} (g : A -> list R) (l : list A) (q : nat) :
  (forall r, length (g r) = C) ->
  norm_at (q * C) (flat_map g l) = flat_map (fun r => norm_at 0 (g r)) l.
Proof.
  intros Hg. revert q. induction l as [| r l IH]; intros q; simpl.
  - reflexivity.
  - rewrite norm_at_app, norm_at_multiple, Hg.
    replace (q * C + C)%nat with (S q * C)%nat by (simpl; lia).
    now rewrite IH.
Qed.

Lemma normalize_flat_map {A : Type} (g : A -> list R) (l : list A) :
  (forall r, length (g r) = C) ->
  BatchNorm1d.normalize b C 1 m v (flat_map g l)
  = flat_map (fun r => BatchNorm1d.normalize b C 1 m v (g r)) l.
Proof.
  intros Hg. rewrite normalize_norm_at.
  exact (norm_at_flat_map g l 0 Hg).
Qed.
End NormalizeRows.

(** ** The stages in evaluation mode, row by row *)

Lemma layer_row_length (l : Linear.t) (r : list R) :
  Linear.wf l -> length (layer_row l r) = Z.to_nat (Linear.out_features l).
Proof.
  intros (_ & _ & _ & _ & Hb & Hbw). unfold layer_row.
  rewrite affine_length, rows_length.
  unfold Tensor_wf in Hbw. rewrite Hbw, Hb. simpl. lia.
Qed.

Lemma Linear_forward_rows (l : Linear.t) (x : Tensor) (B : nat) :
  Linear.wf l ->
  size x = [B; Z.to_nat (Linear.in_features l)] ->
  Linear.forward l x
  = Ok (mkTensor [B; Z.to_nat (Linear.out_features l)]
          (flat_map (layer_row l) (rows B (Z.to_nat (Linear.in_features l)) (data x)))).
Proof.
  intros (_ & _ & Hw & _) Hx. unfold Linear.forward, layer_row.
  rewrite Hx, Hw. simpl. rewrite Nat.eqb_refl, Nat.mul_1_r. reflexivity.
Qed.

Lemma BatchNorm1d_forward_eval_rows (b : BatchNorm1d.t) (x : Tensor) (B : nat) :
  BatchNorm1d.training b = false ->
  Tensor_wf x ->
  size x = [B; Z.to_nat (BatchNorm1d.num_features b)] ->
  BatchNorm1d.forward b x
  = Ok (mkTensor (size x)
          (BatchNorm1d.normalize b (Z.to_nat (BatchNorm1d.num_features b)) 1
             (data (BatchNorm1d.running_mean b)) (data (BatchNorm1d.running_var b))
             (data x)),
        b).
Proof.
  intros Ht Hw Hx. unfold BatchNorm1d.forward. rewrite Hx, Ht.
  cbn [BatchNorm1d.view]. rewrite Nat.eqb_refl. cbn [negb].
  destruct (Nat.eqb_spec (numel [B; Z.to_nat (BatchNorm1d.num_features b)]) 0)
    as [Hz | Hnz]; [| reflexivity].
  unfold Tensor_wf in Hw. rewrite Hx, Hz in Hw.
  destruct x as [sx dx]. simpl in Hw, Hx. subst sx.
  destruct dx; [reflexivity | discriminate].
Qed.

Lemma trunk_eval (l1 l2 l3 : Linear.t) (b : BatchNorm1d.t) (x : Tensor) (B : nat) :
  Linear.wf l1 -> Linear.wf l2 -> Linear.wf l3 ->
  Linear.out_features l1 = BatchNorm1d.num_features b ->
  Linear.in_features l2 = Linear.out_features l1 ->
  Linear.in_features l3 = Linear.out_features l2 ->
  BatchNorm1d.training b = false ->
  size x = [B; Z.to_nat (Linear.in_features l1)] ->
  exists t1 t2 t3,
    Linear.forward l1 x = Ok t1 /\
    BatchNorm1d.forward b (relu t1) = Ok (t2, b) /\
    Linear.forward l2 t2 = Ok t3 /\
    Linear.forward l3 (relu t3)
    = Ok (mkTensor [B; Z.to_nat (Linear.out_features l3)]
            (flat_map (eval_row l1 l2 l3 b)
                      (rows B (Z.to_nat (Linear.in_features l1)) (data x)))).
Proof.
  intros W1 W2 W3 E1 E2 E3 Ht Hx.
  set (R := rows B (Z.to_nat (Linear.in_features l1)) (data x)).
  assert (HR : length R = B) by apply rows_length.
  pose proof (Linear_forward_rows l1 x B W1 Hx) as F1. fold R in F1.
  set (t1 := mkTensor [B; Z.to_nat (Linear.out_features l1)]
                      (flat_map (layer_row l1) R)) in *.
  assert (S1 : size (relu t1) = [B; Z.to_nat (BatchNorm1d.num_features b)])
    by (simpl; now rewrite E1).
  assert (T1 : Tensor_wf (relu t1)).
  { apply relu_wf. unfold Tensor_wf, t1. simpl.
    rewrite (flat_map_length_const _ (Z.to_nat (Linear.out_features l1)))
      by (intros r; now apply layer_row_length).
    rewrite HR. lia. }
  pose proof (BatchNorm1d_forward_eval_rows b (relu t1) B Ht T1 S1) as Fb.
  set (g2 := fun r => bn_row b (map (Rmax 0) (layer_row l1 r))).
  assert (D2 : BatchNorm1d.normalize b (Z.to_nat (BatchNorm1d.num_features b)) 1
                 (data (BatchNorm1d.running_mean b))
                 (data (BatchNorm1d.running_var b)) (data (relu t1))
               = flat_map g2 R).
  { simpl. rewrite map_flat_map.
    apply normalize_flat_map. intros r.
    rewrite length_map, layer_row_length by exact W1. now rewrite E1. }
  rewrite D2 in Fb.
  set (t2 := mkTensor (size (relu t1)) (flat_map g2 R)) in *.
  assert (L2 : forall r, length (g2 r) = Z.to_nat (Linear.in_features l2)).
  { intros r. unfold g2, bn_row. rewrite normalize_length, length_map.
    rewrite layer_row_length by exact W1. now rewrite E2. }
  assert (S2 : size t2 = [B; Z.to_nat (Linear.in_features l2)])
    by (simpl; now rewrite E2).
  pose proof (Linear_forward_rows l2 t2 B W2 S2) as F2.
  assert (R2 : rows B (Z.to_nat (Linear.in_features l2)) (data t2) = map g2 R).
  { simpl. rewrite <- HR at 1. now apply rows_flat_map. }
  rewrite R2, flat_map_map in F2.
  set (g3 := fun r => layer_row l2 (g2 r)) in *.
  set (t3 := mkTensor [B; Z.to_nat (Linear.out_features l2)] (flat_map g3 R)) in *.
  assert (S3 : size (relu t3) = [B; Z.to_nat (Linear.in_features l3)])
    by (simpl; now rewrite E3).
  pose proof (Linear_forward_rows l3 (relu t3) B W3 S3) as F3.
  assert (R3 : rows B (Z.to_nat (Linear.in_features l3)) (data (relu t3))
               = map (fun r => map (Rmax 0) (g3 r)) R).
  { simpl. rewrite map_flat_map. rewrite <- HR at 1.
    apply rows_flat_map. intros r. unfold g3.
    rewrite length_map, layer_row_length by exact W2. now rewrite E3. }
  rewrite R3, flat_map_map in F3.
  exists t1, t2, t3. repeat split; assumption.
Qed.

Lemma Actor_forward_eval_data (a : Actor.t) (x : Tensor) (B : nat) :
  Actor.wf a ->
  BatchNorm1d.training (Actor.bn a) = false ->
  size x = [B; Z.to_nat (Linear.in_features (Actor.fc1 a))] ->
  Actor.forward a x
  = Ok (mkTensor [B; Z.to_nat (Linear.out_features (Actor.fc3 a))]
          (map tanh
             (flat_map (eval_row (Actor.fc1 a) (Actor.fc2 a) (Actor.fc3 a) (Actor.bn a))
                       (rows B (Z.to_nat (Linear.in_features (Actor.fc1 a))) (data x)))),
        a).
Proof.
  intros (W1 & W2 & W3 & Wb & E1 & E2 & E3) Ht Hx.
  destruct (trunk_eval _ _ _ _ x B W1 W2 W3 E1 E2 E3 Ht Hx)
    as (t1 & t2 & t3 & F1 & Fb & F2 & F3).
  unfold Actor.forward. fold (promote x). rewrite (promote_rows x B _ Hx).
  rewrite F1. cbn [bind]. rewrite Fb. cbn [bind]. rewrite F2. cbn [bind].
  rewrite F3. cbn [bind]. unfold tanh_. simpl. now rewrite Actor_eta.
Qed.

Lemma row_in_rows (B k : nat) (d : list R) (i : nat) :
  (i < B)%nat -> (length (nth i (rows B k d) []) <= k)%nat.
Proof.
  intros Hi. pose proof (rows_short B k d) as H.
  rewrite Forall_forall in H. apply H. apply nth_In. now rewrite rows_length.
Qed.

(** X4.  In evaluation mode the rows of a batch do not influence each other
    in [Actor.forward]: the call returns and leaves the actor as it was,
    and row [i] of the result is what the actor returns for row [i] of the
    input given alone. *)
Theorem Actor_forward_eval_rowwise (a : Actor.t) (x : Tensor) (B : nat) :
  Actor.wf a ->
  BatchNorm1d.training (Actor.bn a) = false ->
  size x = [B; Z.to_nat (Linear.in_features (Actor.fc1 a))] ->
  exists y,
    Actor.forward a x = Ok (y, a) /\
    forall i, (i < B)%nat ->
              Actor.forward a (row_tensor x i) = Ok (row_tensor y i, a).
Proof.
  intros W Ht Hx.
  pose proof (Actor_forward_eval_data a x B W Ht Hx) as F.
  eexists. split; [exact F |].
  intros i Hi. unfold row_tensor at 1. rewrite Hx.
  set (k := Z.to_nat (Linear.in_features (Actor.fc1 a))) in *.
  set (ri := nth i (rows B k (data x)) []).
  assert (Hri : (length ri <= k)%nat) by now apply row_in_rows.
  rewrite (Actor_forward_eval_data a (mkTensor [1%nat; k] ri) 1 W Ht eq_refl).
  fold k. unfold row_tensor. simpl size. simpl data.
  rewrite (rows_one k ri Hri). simpl flat_map. rewrite app_nil_r.
  rewrite map_flat_map.
  set (G := fun r : list R => map tanh _).
  assert (HG : forall r, length (G r) = Z.to_nat (Linear.out_features (Actor.fc3 a))).
  { intros r. unfold G. rewrite length_map. apply layer_row_length. apply W. }
  pose proof (rows_flat_map G _ (rows B k (data x)) HG) as E.
  rewrite rows_length in E. rewrite E.
  rewrite (nth_map_rows G _ [] i) by now rewrite rows_length.
  reflexivity.
Qed.

Lemma Critic_forward_eval_data (c : Critic.t) (state action : Tensor) (B n m : nat) :
  Critic.wf c ->
  BatchNorm1d.training (Critic.bn c) = false ->
  size state = [B; n] -> size action = [B; m] ->
  (n + m)%nat = Z.to_nat (Linear.in_features (Critic.fc1 c)) ->
  Critic.forward c state action
  = Ok (mkTensor [B; 1%nat]
          (flat_map (eval_row (Critic.fc1 c) (Critic.fc2 c) (Critic.fc3 c) (Critic.bn c))
                    (rows B (n + m) (joined_rows B n m state action))),
        c).
Proof.
  intros (W1 & W2 & W3 & Wb & E1 & E2 & E3 & E4) Ht Hs Ha Hw.
  pose proof (cat_rows state action B n m Hs Ha) as Hc.
  set (xs := mkTensor [B; (n + m)%nat] (joined_rows B n m state action)) in *.
  assert (Hx : size xs = [B; Z.to_nat (Linear.in_features (Critic.fc1 c))])
    by (simpl; now rewrite Hw).
  destruct (trunk_eval _ _ _ _ xs B W1 W2 W3 E1 E2 E3 Ht Hx)
    as (t1 & t2 & t3 & F1 & Fb & F2 & F3).
  unfold Critic.forward. rewrite Hc. cbn [bind].
  rewrite F1. cbn [bind]. rewrite Fb. cbn [bind]. rewrite F2. cbn [bind].
  rewrite F3. cbn [bind]. rewrite E4, <- Hw. simpl data.
  destruct c; reflexivity.
Qed.

Lemma joined_rows_rows (B n m : nat) (s a : Tensor) :
  length (data s) = (B * n)%nat -> length (data a) = (B * m)%nat ->
  rows B (n + m) (joined_rows B n m s a)
  = map (fun p => fst p ++ snd p) (combine (rows B n (data s)) (rows B m (data a))).
Proof.
  intros Hs Ha. unfold joined_rows.
  set (l := map _ _).
  assert (Hl : length l = B).
  { unfold l. rewrite length_map, length_combine, !rows_length. lia. }
  rewrite <- Hl at 1. apply rows_concat.
  unfold l. apply Forall_forall. intros r Hr.
  apply in_map_iff in Hr. destruct Hr as ([r1 r2] & <- & Hin).
  pose proof (in_combine_l _ _ _ _ Hin) as H1.
  pose proof (in_combine_r _ _ _ _ Hin) as H2.
  pose proof (rows_full B n (data s) Hs) as F1.
  pose proof (rows_full B m (data a) Ha) as F2.
  rewrite Forall_forall in F1, F2. simpl.
  now rewrite length_app, (F1 _ H1), (F2 _ H2).
Qed.

(** X5.  In evaluation mode the rows of a batch do not influence each other
    in [Critic.forward]: the call returns and leaves the critic as it was,
    and row [i] of the result is what the critic returns for row [i] of
    the state and row [i] of the action given alone. *)
Theorem Critic_forward_eval_rowwise
        (c : Critic.t) (state action : Tensor) (B n m : nat) :
  Critic.wf c ->
  BatchNorm1d.training (Critic.bn c) = false ->
  size state = [B; n] -> size action = [B; m] ->
  Tensor_wf state -> Tensor_wf action ->
  (n + m)%nat = Z.to_nat (Linear.in_features (Critic.fc1 c)) ->
  exists y,
    Critic.forward c state action = Ok (y, c) /\
    forall i, (i < B)%nat ->
              Critic.forward c (row_tensor state i) (row_tensor action i)
              = Ok (row_tensor y i, c).
Proof.
  intros W Ht Hs Ha Ws Wa Hw.
  pose proof (Critic_forward_eval_data c state action B n m W Ht Hs Ha Hw) as F.
  eexists. split; [exact F |].
  intros i Hi. unfold row_tensor at 1 2. rewrite Hs, Ha.
  set (rs := nth i (rows B n (data state)) []).
  set (ra := nth i (rows B m (data action)) []).
  assert (Hrs : (length rs <= n)%nat) by now apply row_in_rows.
  assert (Hra : (length ra <= m)%nat) by now apply row_in_rows.
  rewrite (Critic_forward_eval_data c (mkTensor [1%nat; n] rs) (mkTensor [1%nat; m] ra)
             1 n m W Ht eq_refl eq_refl Hw).
  assert (Hone : rows 1 (n + m)
                   (joined_rows 1 n m (mkTensor [1%nat; n] rs) (mkTensor [1%nat; m] ra))
                 = [rs ++ ra]).
  { unfold joined_rows. simpl data.
    rewrite (rows_one n rs Hrs), (rows_one m ra Hra). simpl concat.
    rewrite app_nil_r. apply rows_one. rewrite length_app. lia. }
  rewrite Hone. simpl flat_map. rewrite app_nil_r.
  unfold Tensor_wf in Ws, Wa. rewrite Hs in Ws. rewrite Ha in Wa.
  simpl in Ws, Wa. rewrite Nat.mul_1_r in Ws, Wa.
  unfold row_tensor. simpl size. simpl data.
  rewrite (joined_rows_rows B n m state action Ws Wa).
  rewrite flat_map_map.
  set (G := fun p : list R * list R => _).
  assert (HG : forall p, length (G p) = 1%nat).
  { intros p. unfold G, eval_row. rewrite layer_row_length by apply W.
    destruct W as (_ & _ & _ & _ & _ & _ & _ & E4). now rewrite E4. }
  assert (Hlen : length (combine (rows B n (data state)) (rows B m (data action))) = B)
    by (rewrite length_combine, !rows_length; lia).
  pose proof (rows_flat_map G 1
                (combine (rows B n (data state)) (rows B m (data action))) HG) as E.
  rewrite Hlen in E. rewrite E.
  rewrite (nth_map_rows G _ ([], []) i) by now rewrite Hlen.
  rewrite combine_nth by now rewrite !rows_length.
  reflexivity.
Qed.

(** ** What [forward] changes *)

Lemma blend_length (b : BatchNorm1d.t) (old new : list R) :
  length (BatchNorm1d.blend b old new) = Nat.min (length old) (length new).
Proof. unfold BatchNorm1d.blend. now rewrite length_map, length_combine. Qed.

Lemma BatchNorm1d_forward_frame (b b' : BatchNorm1d.t) (x y : Tensor) :
  BatchNorm1d.forward b x = Ok (y, b') ->
  same_settings b b' /\
  size y = size x /\
  (BatchNorm1d.wf b -> BatchNorm1d.wf b') /\
  (BatchNorm1d.training b = false -> b' = b) /\
  (BatchNorm1d.training b = true ->
   BatchNorm1d.num_batches_tracked b' = (BatchNorm1d.num_batches_tracked b + 1)%Z).
Proof.
  unfold BatchNorm1d.forward.
  destruct (BatchNorm1d.view (size x)) as [[[N C] L] |]; [| discriminate].
  destruct (BatchNorm1d.training b) eqn:Ht.
  - destruct (N * L =? 1)%nat; [discriminate |].
    destruct (numel (size x) =? 0)%nat.
    { intros [= <- <-].
      split; [unfold same_settings; simpl; repeat split; auto |].
      split; [reflexivity |].
      split; [| split; [intros Hf; discriminate Hf | reflexivity]].
      intros (Hn & Hw & Hb & Hm & Hv). unfold BatchNorm1d.wf. simpl.
      repeat split; assumption. }
    destruct (Nat.eqb_spec C (Z.to_nat (BatchNorm1d.num_features b))) as [EC | NC];
      [| discriminate].
    simpl. intros [= <- <-].
    split; [unfold same_settings; simpl; repeat split; auto |].
    split; [reflexivity |].
    split; [| split; [intros Hf; discriminate Hf | reflexivity]].
    intros (Hn & Hw & Hb & Hm & Hv). unfold BatchNorm1d.wf. simpl.
    rewrite !blend_length, !length_map, length_seq, Hm, Hv, <- EC.
    repeat split; try assumption; lia.
  - destruct (numel (size x) =? 0)%nat.
    { intros [= <- <-].
      split; [unfold same_settings; repeat split; reflexivity |].
      split; [reflexivity |].
      split; [auto | split; [reflexivity | intros Hf; discriminate Hf]]. }
    destruct (negb _); [discriminate |].
    intros [= <- <-].
    split; [unfold same_settings; repeat split; reflexivity |].
    split; [reflexivity |].
    split; [auto | split; [reflexivity | intros Hf; discriminate Hf]].
Qed.

Lemma Actor_forward_inv (a a' : Actor.t) (x y : Tensor) :
  Actor.forward a x = Ok (y, a') ->
  exists h1 h2 bn' h3 h4,
    Linear.forward (Actor.fc1 a) (promote x) = Ok h1 /\
    BatchNorm1d.forward (Actor.bn a) (relu h1) = Ok (h2, bn') /\
    Linear.forward (Actor.fc2 a) h2 = Ok h3 /\
    Linear.forward (Actor.fc3 a) (relu h3) = Ok h4 /\
    y = tanh_ h4 /\
    a' = Actor.mk (Actor.fc1 a) (Actor.fc2 a) (Actor.fc3 a) bn'.
Proof.
  unfold Actor.forward. fold (promote x). intros H.
  apply bind_Ok in H. destruct H as (h1 & F1 & H). cbn zeta in H.
  apply bind_Ok in H. destruct H as ([h2 bn'] & Fb & H).
  apply bind_Ok in H. destruct H as (h3 & F2 & H). cbn zeta in H.
  apply bind_Ok in H. destruct H as (h4 & F3 & H). cbn zeta in H.
  injection H as <- <-.
  exists h1, h2, bn', h3, h4. repeat split; assumption.
Qed.

Lemma Critic_forward_inv (c c' : Critic.t) (state action y : Tensor) :
  Critic.forward c state action = Ok (y, c') ->
  exists xs h1 h2 bn' h3,
    cat (state, action) 1 = Ok xs /\
    Linear.forward (Critic.fc1 c) xs = Ok h1 /\
    BatchNorm1d.forward (Critic.bn c) (relu h1) = Ok (h2, bn') /\
    Linear.forward (Critic.fc2 c) h2 = Ok h3 /\
    Linear.forward (Critic.fc3 c) (relu h3) = Ok y /\
    c' = Critic.mk (Critic.fc1 c) (Critic.fc2 c) (Critic.fc3 c) bn'.
Proof.
  unfold Critic.forward. intros H.
  apply bind_Ok in H. destruct H as (xs & Fc & H).
  apply bind_Ok in H. destruct H as (h1 & F1 & H). cbn zeta in H.
  apply bind_Ok in H. destruct H as ([h2 bn'] & Fb & H).
  apply bind_Ok in H. destruct H as (h3 & F2 & H). cbn zeta in H.
  apply bind_Ok in H. destruct H as (h4 & F3 & H).
  injection H as <- <-.
  exists xs, h1, h2, bn', h3. repeat split; assumption.
Qed.

(** X2.  A call of [Actor.forward] that returns has not touched the three
    linear layers, nor the scale, shift, mode and settings of the
    normalisation stage; a well-formed actor is well formed afterwards; in
    evaluation mode the actor is exactly as before, and in training mode
    the stage has counted one more batch.  The result has as many axes as
    the promoted input, at least two. *)
Theorem Actor_forward_frame (a a' : Actor.t) (x y : Tensor) :
  Actor.forward a x = Ok (y, a') ->
  Actor.fc1 a' = Actor.fc1 a /\
  Actor.fc2 a' = Actor.fc2 a /\
  Actor.fc3 a' = Actor.fc3 a /\
  same_settings (Actor.bn a) (Actor.bn a') /\
  (Actor.wf a -> Actor.wf a') /\
  (BatchNorm1d.training (Actor.bn a) = false -> a' = a) /\
  (BatchNorm1d.training (Actor.bn a) = true ->
   BatchNorm1d.num_batches_tracked (Actor.bn a')
   = (BatchNorm1d.num_batches_tracked (Actor.bn a) + 1)%Z) /\
  dim y = dim (promote x) /\ (2 <= dim y)%nat.
Proof.
  intros H. apply Actor_forward_inv in H.
  destruct H as (h1 & h2 & bn' & h3 & h4 & F1 & Fb & F2 & F3 & -> & ->).
  pose proof (BatchNorm1d_forward_rank _ _ _ _ Fb) as Hrank.
  apply BatchNorm1d_forward_frame in Fb.
  destruct Fb as (Hs & Sy & Hwf & Hev & Htr). simpl.
  apply Linear_forward_rank in F1, F2, F3.
  assert (Hd : dim (tanh_ h4) = dim (promote x)).
  { unfold dim in *. simpl. rewrite F3, relu_size, F2, Sy, relu_size. exact F1. }
  repeat (split; [reflexivity |]).
  split; [exact Hs |].
  split.
  { intros (W1 & W2 & W3 & Wb & E1 & E2 & E3). unfold Actor.wf. simpl.
    destruct Hs as (En & _). rewrite En. auto 10. }
  split; [intros Ht; rewrite (Hev Ht); apply Actor_eta |].
  split; [exact Htr |].
  split; [exact Hd |].
  rewrite Hd, <- F1. unfold dim in *. now rewrite relu_size in Hrank.
Qed.

(** X3.  A call of [Critic.forward] that returns has not touched the three
    linear layers, nor the scale, shift, mode and settings of the
    normalisation stage; a well-formed critic is well formed afterwards;
    in evaluation mode the critic is exactly as before, and in training
    mode the stage has counted one more batch.  The result has two axes or
    more. *)
Theorem Critic_forward_frame (c c' : Critic.t) (state action y : Tensor) :
  Critic.forward c state action = Ok (y, c') ->
  Critic.fc1 c' = Critic.fc1 c /\
  Critic.fc2 c' = Critic.fc2 c /\
  Critic.fc3 c' = Critic.fc3 c /\
  same_settings (Critic.bn c) (Critic.bn c') /\
  (Critic.wf c -> Critic.wf c') /\
  (BatchNorm1d.training (Critic.bn c) = false -> c' = c) /\
  (BatchNorm1d.training (Critic.bn c) = true ->
   BatchNorm1d.num_batches_tracked (Critic.bn c')
   = (BatchNorm1d.num_batches_tracked (Critic.bn c) + 1)%Z) /\
  (2 <= dim y)%nat.
Proof.
  intros H. apply Critic_forward_inv in H.
  destruct H as (xs & h1 & h2 & bn' & h3 & Fc & F1 & Fb & F2 & F3 & ->).
  pose proof (BatchNorm1d_forward_rank _ _ _ _ Fb) as Hrank.
  apply BatchNorm1d_forward_frame in Fb.
  destruct Fb as (Hs & Sy & Hwf & Hev & Htr). simpl.
  apply Linear_forward_rank in F2, F3.
  repeat (split; [reflexivity |]).
  split; [exact Hs |].
  split.
  { intros (W1 & W2 & W3 & Wb & E1 & E2 & E3 & E4). unfold Critic.wf. simpl.
    destruct Hs as (En & _). rewrite En. auto 10. }
  split; [intros Ht; rewrite (Hev Ht); destruct c; reflexivity |].
  split; [exact Htr |].
  unfold dim in *. rewrite F3, relu_size, F2, Sy. exact Hrank.
Qed.

(** ** Sizes decide the outcome *)

Lemma Linear_forward_outcome (l l' : Linear.t) (x x' : Tensor) :
  size (Linear.weight l) = size (Linear.weight l') ->
  size x = size x' ->
  match Linear.forward l x, Linear.forward l' x' with
  | Ok y, Ok y' => size y = size y'
  | Err e, Err e' => e = e'
  | _, _ => False
  end.
Proof.
  intros Hw Hx. unfold Linear.forward. rewrite Hw, Hx.
  destruct (rev (size x')) as [| k lead]; [reflexivity |].
  destruct (size (Linear.weight l')) as [| o [| i [| ? ?]]]; try reflexivity.
  destruct (k =? i)%nat; reflexivity.
Qed.

Lemma BatchNorm1d_forward_outcome (b b' : BatchNorm1d.t) (x x' : Tensor) :
  BatchNorm1d.num_features b = BatchNorm1d.num_features b' ->
  BatchNorm1d.training b = BatchNorm1d.training b' ->
  size x = size x' ->
  match BatchNorm1d.forward b x, BatchNorm1d.forward b' x' with
  | Ok (y, _), Ok (y', _) => size y = size y'
  | Err e, Err e' => e = e'
  | _, _ => False
  end.
Proof.
  intros Hn Ht Hx. unfold BatchNorm1d.forward. rewrite Hn, Ht, Hx.
  destruct (BatchNorm1d.view (size x')) as [[[N C] L] |]; [| reflexivity].
  destruct (BatchNorm1d.training b').
  - destruct (N * L =? 1)%nat; [reflexivity |].
    destruct (numel (size x') =? 0)%nat; [simpl; exact Hx |].
    destruct (negb _); reflexivity.
  - destruct (numel (size x') =? 0)%nat; [simpl; exact Hx |].
    destruct (negb _); reflexivity.
Qed.

Lemma Actor_forward_outcome (a a' : Actor.t) (x : Tensor) :
  same_sizes (Actor.fc1 a) (Actor.fc1 a') ->
  same_sizes (Actor.fc2 a) (Actor.fc2 a') ->
  same_sizes (Actor.fc3 a) (Actor.fc3 a') ->
  BatchNorm1d.num_features (Actor.bn a) = BatchNorm1d.num_features (Actor.bn a') ->
  BatchNorm1d.training (Actor.bn a) = BatchNorm1d.training (Actor.bn a') ->
  outcome (Actor.forward a x) = outcome (Actor.forward a' x).
Proof.
  intros S1 S2 S3 Hn Ht. unfold Actor.forward. fold (promote x).
  pose proof (Linear_forward_outcome _ _ (promote x) (promote x) S1 eq_refl) as O1.
  destruct (Linear.forward (Actor.fc1 a) (promote x)) as [h1 | e1],
           (Linear.forward (Actor.fc1 a') (promote x)) as [h1' | e1'];
    cbn [bind]; try contradiction; [| now rewrite O1].
  pose proof (BatchNorm1d_forward_outcome _ _ (relu h1) (relu h1') Hn Ht O1) as Ob.
  destruct (BatchNorm1d.forward (Actor.bn a) (relu h1)) as [[h2 c2] | e2],
           (BatchNorm1d.forward (Actor.bn a') (relu h1')) as [[h2' c2'] | e2'];
    cbn [bind]; try contradiction; [| now rewrite Ob].
  pose proof (Linear_forward_outcome _ _ h2 h2' S2 Ob) as O2.
  destruct (Linear.forward (Actor.fc2 a) h2) as [h3 | e3],
           (Linear.forward (Actor.fc2 a') h2') as [h3' | e3'];
    cbn [bind]; try contradiction; [| now rewrite O2].
  pose proof (Linear_forward_outcome _ _ (relu h3) (relu h3') S3 O2) as O3.
  destruct (Linear.forward (Actor.fc3 a) (relu h3)) as [h4 | e4],
           (Linear.forward (Actor.fc3 a') (relu h3')) as [h4' | e4'];
    cbn [bind]; try contradiction; [| now rewrite O3].
  simpl. now rewrite O3.
Qed.

Lemma Critic_forward_outcome (c c' : Critic.t) (state action : Tensor) :
  same_sizes (Critic.fc1 c) (Critic.fc1 c') ->
  same_sizes (Critic.fc2 c) (Critic.fc2 c') ->
  same_sizes (Critic.fc3 c) (Critic.fc3 c') ->
  BatchNorm1d.num_features (Critic.bn c) = BatchNorm1d.num_features (Critic.bn c') ->
  BatchNorm1d.training (Critic.bn c) = BatchNorm1d.training (Critic.bn c') ->
  outcome (Critic.forward c state action) = outcome (Critic.forward c' state action).
Proof.
  intros S1 S2 S3 Hn Ht. unfold Critic.forward.
  destruct (cat (state, action) 1) as [xs | e]; cbn [bind]; [| reflexivity].
  pose proof (Linear_forward_outcome _ _ xs xs S1 eq_refl) as O1.
  destruct (Linear.forward (Critic.fc1 c) xs) as [h1 | e1],
           (Linear.forward (Critic.fc1 c') xs) as [h1' | e1'];
    cbn [bind]; try contradiction; [| now rewrite O1].
  pose proof (BatchNorm1d_forward_outcome _ _ (relu h1) (relu h1') Hn Ht O1) as Ob.
  destruct (BatchNorm1d.forward (Critic.bn c) (relu h1)) as [[h2 c2] | e2],
           (BatchNorm1d.forward (Critic.bn c') (relu h1')) as [[h2' c2'] | e2'];
    cbn [bind]; try contradiction; [| now rewrite Ob].
  pose proof (Linear_forward_outcome _ _ h2 h2' S2 Ob) as O2.
  destruct (Linear.forward (Critic.fc2 c) h2) as [h3 | e3],
           (Linear.forward (Critic.fc2 c') h2') as [h3' | e3'];
    cbn [bind]; try contradiction; [| now rewrite O2].
  pose proof (Linear_forward_outcome _ _ (relu h3) (relu h3') S3 O2) as O3.
  destruct (Linear.forward (Critic.fc3 c) (relu h3)) as [h4 | e4],
           (Linear.forward (Critic.fc3 c') (relu h3')) as [h4' | e4'];
    cbn [bind]; try contradiction; [| now rewrite O3].
  simpl. now rewrite O3.
Qed.

Section ResetShapes.
Context {RS : RandomSource}.

Lemma Actor_reset_sizes (a a' : Actor.t) (g g' : Generator) :
  Actor.reset_parameters a g = Ok (a', g') ->
  same_sizes (Actor.fc1 a') (Actor.fc1 a) /\
  same_sizes (Actor.fc2 a') (Actor.fc2 a) /\
  same_sizes (Actor.fc3 a') (Actor.fc3 a).
Proof.
  intros H. apply Actor_reset_inv in H.
  destruct H as (d1 & r1 & d2 & r2 & g1 & g2 & w1 & w2 & w3
                 & _ & _ & U1 & U2 & U3 & ->).
  apply (f_equal fst) in U1, U2, U3. simpl in U1, U2, U3. subst w1 w2 w3.
  unfold same_sizes. simpl. now rewrite !fill_size.
Qed.

(** X1.  [reset_parameters] redraws the weights in place: the three weight
    tensors keep their sizes, a well-formed network stays well formed, and
    every call of [forward] ends as it would have before, with the same
    error or with a result of the same size.  This holds for actors and for
    critics. *)
Theorem reset_parameters_keeps_shapes :
  (forall a g a' g',
      Actor.reset_parameters a g = Ok (a', g') ->
      same_sizes (Actor.fc1 a') (Actor.fc1 a) /\
      same_sizes (Actor.fc2 a') (Actor.fc2 a) /\
      same_sizes (Actor.fc3 a') (Actor.fc3 a) /\
      (Actor.wf a -> Actor.wf a') /\
      (forall x, outcome (Actor.forward a' x) = outcome (Actor.forward a x))) /\
  (forall c g c' g',
      Critic.reset_parameters c g = Ok (c', g') ->
      same_sizes (Critic.fc1 c') (Critic.fc1 c) /\
      same_sizes (Critic.fc2 c') (Critic.fc2 c) /\
      same_sizes (Critic.fc3 c') (Critic.fc3 c) /\
      (Critic.wf c -> Critic.wf c') /\
      (forall state action,
          outcome (Critic.forward c' state action)
          = outcome (Critic.forward c state action))).
Proof.
  split.
  - intros a g a' g' H.
    pose proof (Actor_reset_sizes _ _ _ _ H) as (S1 & S2 & S3).
    pose proof (Actor_reset_frame _ _ _ _ H) as (_ & _ & _ & Hbn & _).
    repeat (split; [assumption |]).
    split; [intros W; exact (Actor_reset_wf _ _ _ _ W H) |].
    intros x. apply Actor_forward_outcome; try assumption; now rewrite Hbn.
  - intros c g c' g' H. apply Critic_reset_inv in H.
    pose proof (Actor_reset_sizes _ _ _ _ H) as (S1 & S2 & S3).
    pose proof (Actor_reset_frame _ _ _ _ H) as (_ & _ & _ & Hbn & F1 & F2 & F3).
    simpl in *.
    repeat (split; [assumption |]).
    split.
    { intros W. apply as_actor_wf.
      - exact (Actor_reset_wf _ _ _ _ (Critic_wf_as_actor c W) H).
      - destruct W as (_ & _ & _ & _ & _ & _ & _ & E4).
        injection F3 as _ ->. exact E4. }
    intros state action.
    apply Critic_forward_outcome; try assumption; now rewrite Hbn.
Qed.
End ResetShapes.

(** ** Construction: which widths are accepted, and the ranges they give *)

Lemma INR_to_nat (z : Z) : (0 <= z)%Z -> INR (Z.to_nat z) = IZR z.
Proof. intros H. now rewrite INR_IZR_INZ, Z2Nat.id. Qed.

Lemma inv_sqrt_le_1 (h : Z) : (1 <= h)%Z -> 1 / sqrt (IZR h) <= 1.
Proof.
  intros H. assert (Hs : 1 <= sqrt (IZR h)).
  { rewrite <- sqrt_1. apply sqrt_le_1_alt. now apply IZR_le. }
  unfold Rdiv. rewrite Rmult_1_l. rewrite <- Rinv_1.
  apply Rinv_le_contravar; lra.
Qed.

Lemma sqrt_IZR_256 : sqrt 256 = 16.
Proof. replace 256 with (16 * 16) by lra. apply sqrt_square. lra. Qed.

Section Widths.
Context {RS : RandomSource}.









Lemma Actor_init_ranges (i h1 h2 o seed : Z) (g0 g' : Generator) (a : Actor.t) :
  unit_draws RS ->
  Actor.init i h1 h2 o seed g0 = Ok (a, g') ->
  within (- (1 / sqrt (IZR h1))) (1 / sqrt (IZR h1)) (Linear.weight (Actor.fc1 a)) /\
  within (- (1 / sqrt (IZR h2))) (1 / sqrt (IZR h2)) (Linear.weight (Actor.fc2 a)) /\
  within (-0.003) 0.003 (Linear.weight (Actor.fc3 a)).
Proof.
  intros Hu H.
  pose proof (Actor_init_wf _ _ _ _ _ _ _ _ H) as (W & _ & O1 & O2 & _).
  apply Actor_init_inv in H.
  destruct H as (l1 & g1 & l2 & g2 & l3 & g3 & b & _ & _ & _ & _ & Hr).
  destruct (Actor_reset_ranges _ _ _ _ Hu Hr) as (R1 & R2 & R3).
  destruct W as ((_ & P1 & S1 & _) & (_ & P2 & S2 & _) & _).
  specialize (R1 _ _ S1). specialize (R2 _ _ S2).
  rewrite INR_to_nat in R1, R2 by assumption.
  rewrite O1 in R1. rewrite O2 in R2. auto.
Qed.
End Widths.

Section Ensemble.
Context {RS : RandomSource}.

Lemma Actor_Critics_init_inv
      (n s a hi ho seed : Z) (g g' : Generator) (e : Actor_Critics.t) :
  Actor_Critics.init n s a hi ho seed g = Ok (e, g') ->
  exists g1 g2 g3,
    Actor.init s hi ho a seed g = Ok (Actor_Critics.actor_local e, g1) /\
    Actor.init s hi ho a seed g1 = Ok (Actor_Critics.actor_target e, g2) /\
    Critic.init ((s + a) * n) hi ho seed g2 = Ok (Actor_Critics.critic_local e, g3) /\
    Critic.init ((s + a) * n) hi ho seed g3 = Ok (Actor_Critics.critic_target e, g').
Proof.
  unfold Actor_Critics.init. intros H.
  apply bind_Ok in H. destruct H as ([al g1] & E1 & H).
  apply bind_Ok in H. destruct H as ([at_ g2] & E2 & H).
  apply bind_Ok in H. destruct H as ([cl g3] & E3 & H).
  apply bind_Ok in H. destruct H as ([ct g4] & E4 & H).
  injection H as <- <-. simpl. eauto 10.
Qed.

(** X6.  The ranges of the initial weights, in terms of the constructor's
    arguments (draws in the unit interval assumed).  In a freshly built
    actor or critic the weights of layer 1 lie within
    [1 / sqrt hidden_in_dim] of zero and those of layer 2 within
    [1 / sqrt hidden_out_dim]: the bound follows the width a layer
    produces, whatever [input_dim] is; layer 3 stays within 0.003.  So
    with hidden widths of at least one no initial weight exceeds one in
    magnitude, and with the default hidden widths (256) the weights of
    layers 1 and 2 of all four networks of an ensemble lie in
    [-0.0625, 0.0625]. *)
Theorem initial_weights_by_widths :
  unit_draws RS ->
  (forall i h1 h2 o seed g0 a g',
      Actor.init i h1 h2 o seed g0 = Ok (a, g') ->
      within (- (1 / sqrt (IZR h1))) (1 / sqrt (IZR h1)) (Linear.weight (Actor.fc1 a)) /\
      within (- (1 / sqrt (IZR h2))) (1 / sqrt (IZR h2)) (Linear.weight (Actor.fc2 a)) /\
      within (-0.003) 0.003 (Linear.weight (Actor.fc3 a)) /\
      ((1 <= h1)%Z -> (1 <= h2)%Z ->
       hidden_weights_within (-1) 1 a /\ within (-1) 1 (Linear.weight (Actor.fc3 a)))) /\
  (forall i h1 h2 seed g0 c g',
      Critic.init i h1 h2 seed g0 = Ok (c, g') ->
      within (- (1 / sqrt (IZR h1))) (1 / sqrt (IZR h1)) (Linear.weight (Critic.fc1 c)) /\
      within (- (1 / sqrt (IZR h2))) (1 / sqrt (IZR h2)) (Linear.weight (Critic.fc2 c)) /\
      within (-0.003) 0.003 (Linear.weight (Critic.fc3 c))) /\
  (forall n s a g e g',
      Actor_Critics.init_default n s a g = Ok (e, g') ->
      hidden_weights_within (-0.0625) 0.0625 (Actor_Critics.actor_local e) /\
      hidden_weights_within (-0.0625) 0.0625 (Actor_Critics.actor_target e) /\
      hidden_weights_within (-0.0625) 0.0625 (as_actor (Actor_Critics.critic_local e)) /\
      hidden_weights_within (-0.0625) 0.0625 (as_actor (Actor_Critics.critic_target e))).
Proof.
  intros Hu.
  assert (HC : forall i h1 h2 seed g0 c g',
             Critic.init i h1 h2 seed g0 = Ok (c, g') ->
             within (- (1 / sqrt (IZR h1))) (1 / sqrt (IZR h1))
                    (Linear.weight (Critic.fc1 c)) /\
             within (- (1 / sqrt (IZR h2))) (1 / sqrt (IZR h2))
                    (Linear.weight (Critic.fc2 c)) /\
             within (-0.003) 0.003 (Linear.weight (Critic.fc3 c))).
  { intros i h1 h2 seed g0 c g' H. apply Critic_init_inv_actor in H.
    exact (Actor_init_ranges _ _ _ _ _ _ _ _ Hu H). }
  split; [| split; [exact HC |]].
  - intros i h1 h2 o seed g0 a g' H.
    destruct (Actor_init_ranges _ _ _ _ _ _ _ _ Hu H) as (R1 & R2 & R3).
    repeat (split; [assumption |]).
    intros H1 H2. pose proof (inv_sqrt_le_1 h1 H1). pose proof (inv_sqrt_le_1 h2 H2).
    split; [split |].
    + eapply within_weaken; [| | exact R1]; lra.
    + eapply within_weaken; [| | exact R2]; lra.
    + eapply within_weaken; [| | exact R3]; lra.
  - intros n s a g e g' H. unfold Actor_Critics.init_default in H.
    apply Actor_Critics_init_inv in H.
    destruct H as (g1 & g2 & g3 & E1 & E2 & E3 & E4).
    unfold Actor_Critics.default_hidden_in_dim,
           Actor_Critics.default_hidden_out_dim in *.
    pose proof (Actor_init_ranges _ _ _ _ _ _ _ _ Hu E1) as (A1 & A2 & _).
    pose proof (Actor_init_ranges _ _ _ _ _ _ _ _ Hu E2) as (B1 & B2 & _).
    pose proof (HC _ _ _ _ _ _ _ E3) as (C1 & C2 & _).
    pose proof (HC _ _ _ _ _ _ _ E4) as (D1 & D2 & _).
    rewrite sqrt_IZR_256 in *.
    unfold hidden_weights_within. simpl.
    repeat split; (eapply within_weaken; [| | eassumption]; lra).
Qed.

(** X8.  A critic is an actor of output width one without the final
    hyperbolic tangent.  Built with the same widths and seed the two have
    the same parameters; and on a joint input [xs] (the concatenation of a
    state and an action, not the empty vector) the actor's [forward]
    returns the hyperbolic tangent of what the critic's returns, and fails
    where it fails. *)
Theorem Critic_is_Actor_without_tanh :
  (forall i h1 h2 seed g0,
      Critic.init i h1 h2 seed g0 =
      ' (a, g') <- Actor.init i h1 h2 1 seed g0 ;; Ok (as_critic a, g')) /\
  (forall c state action xs,
      cat (state, action) 1 = Ok xs -> dim xs <> 1%nat ->
      Actor.forward (as_actor c) xs =
      ' (y, c') <- Critic.forward c state action ;; Ok (tanh_ y, as_actor c')).
Proof.
  split; [exact Critic_init_as_actor |].
  intros c state action xs Hc Hd.
  unfold Actor.forward, Critic.forward. rewrite Hc. cbn [bind].
  apply Nat.eqb_neq in Hd. rewrite Hd. simpl.
  destruct (Linear.forward (Critic.fc1 c) xs) as [h1 | e]; [| reflexivity]. cbn [bind].
  destruct (BatchNorm1d.forward (Critic.bn c) (relu h1)) as [[h2 bn'] | e];
    [| reflexivity]. cbn [bind].
  destruct (Linear.forward (Critic.fc2 c) h2) as [h3 | e]; [| reflexivity]. cbn [bind].
  destruct (Linear.forward (Critic.fc3 c) (relu h3)) as [h4 | e]; reflexivity.
Qed.

Lemma joint_width (n s a : Z) :
  (0 < n)%Z -> (0 < s)%Z -> (0 < a)%Z ->
  (Z.to_nat (n * s) + Z.to_nat (n * a))%nat = Z.to_nat ((s + a) * n).
Proof. intros Hn Hs Ha. rewrite <- Z2Nat.inj_add by lia. f_equal. ring. Qed.

(** X9.  The four networks of an ensemble fit together.  Each actor takes
    rows of [state_size] values and returns rows of [action_size] values;
    each critic takes, for [n_agents] agents, rows of
    [n_agents * state_size] state values beside rows of
    [n_agents * action_size] action values and returns one value per row.
    (The networks are freshly built, so in training mode: the number of
    rows is not one.) *)
Theorem ensemble_networks_fit
        (n s a hi ho seed : Z) (g g' : Generator) (e : Actor_Critics.t) (B : nat) :
  (0 < n)%Z -> (0 < s)%Z -> (0 < a)%Z ->
  Actor_Critics.init n s a hi ho seed g = Ok (e, g') ->
  B <> 1%nat ->
  (forall x, size x = [B; Z.to_nat s] ->
             exists y1 a1 y2 a2,
               Actor.forward (Actor_Critics.actor_local e) x = Ok (y1, a1) /\
               Actor.forward (Actor_Critics.actor_target e) x = Ok (y2, a2) /\
               size y1 = [B; Z.to_nat a] /\ size y2 = [B; Z.to_nat a]) /\
  (forall state action,
      size state = [B; Z.to_nat (n * s)] -> size action = [B; Z.to_nat (n * a)] ->
      exists q1 c1 q2 c2,
        Critic.forward (Actor_Critics.critic_local e) state action = Ok (q1, c1) /\
        Critic.forward (Actor_Critics.critic_target e) state action = Ok (q2, c2) /\
        size q1 = [B; 1%nat] /\ size q2 = [B; 1%nat]).
Proof.
  intros Hn Hs Ha H HB. apply Actor_Critics_init_inv in H.
  destruct H as (g1 & g2 & g3 & E1 & E2 & E3 & E4).
  apply Actor_init_wf in E1, E2. apply Critic_init_wf in E3, E4.
  destruct E1 as (W1 & I1 & _ & _ & O1 & _), E2 as (W2 & I2 & _ & _ & O2 & _).
  destruct E3 as (W3 & I3 & _), E4 as (W4 & I4 & _).
  split.
  - intros x Hx.
    destruct (Actor_forward_stages (Actor_Critics.actor_local e) x B W1)
      as (? & ? & b1 & ? & y1 & _ & _ & _ & _ & F1 & S1 & _);
      [rewrite (promote_rows x B _ Hx), I1; exact Hx | now right |].
    destruct (Actor_forward_stages (Actor_Critics.actor_target e) x B W2)
      as (? & ? & b2 & ? & y2 & _ & _ & _ & _ & F2 & S2 & _);
      [rewrite (promote_rows x B _ Hx), I2; exact Hx | now right |].
    rewrite O1 in S1. rewrite O2 in S2. eauto 10.
  - intros state action Hst Hac.
    pose proof (joint_width n s a Hn Hs Ha) as Hj.
    destruct (Critic_forward_stages (Actor_Critics.critic_local e) state action B _ _
                W3 Hst Hac)
      as (? & ? & ? & b1 & ? & q1 & _ & _ & _ & _ & _ & _ & _ & F1 & S1 & _);
      [now rewrite I3 | now right |].
    destruct (Critic_forward_stages (Actor_Critics.critic_target e) state action B _ _
                W4 Hst Hac)
      as (? & ? & ? & b2 & ? & q2 & _ & _ & _ & _ & _ & _ & _ & F2 & S2 & _);
      [now rewrite I4 | now right |].
    eauto 10.
Qed.

(** X10.  The critic of an ensemble of two agents or more does not accept
    one agent's state beside one agent's action: the joint width does not
    match and the call fails with a dimension mismatch. *)
Theorem ensemble_critic_rejects_single_agent
        (n s a hi ho seed : Z) (g g' : Generator) (e : Actor_Critics.t)
        (state action : Tensor) (B : nat) :
  (1 < n)%Z -> (0 < s)%Z -> (0 < a)%Z ->
  Actor_Critics.init n s a hi ho seed g = Ok (e, g') ->
  size state = [B; Z.to_nat s] -> size action = [B; Z.to_nat a] ->
  Critic.forward (Actor_Critics.critic_local e) state action = Err DimensionMismatch /\
  Critic.forward (Actor_Critics.critic_target e) state action = Err DimensionMismatch.
Proof.
  intros Hn Hs Ha H Hst Hac. apply Actor_Critics_init_inv in H.
  destruct H as (g1 & g2 & g3 & _ & _ & E3 & E4).
  apply Critic_init_wf in E3, E4.
  destruct E3 as ((W3 & _) & I3 & _), E4 as ((W4 & _) & I4 & _).
  assert (Hne : (Z.to_nat s + Z.to_nat a)%nat <> Z.to_nat ((s + a) * n)).
  { rewrite <- Z2Nat.inj_add by lia. intros Heq.
    apply Z2Nat.inj in Heq; nia. }
  split; unfold Critic.forward; rewrite (cat_rows _ _ _ _ _ Hst Hac); cbn [bind].
  - rewrite (Linear_forward_mismatch _ _ W3); [reflexivity |].
    unfold last_dim. simpl. rewrite I3. congruence.
  - rewrite (Linear_forward_mismatch _ _ W4); [reflexivity |].
    unfold last_dim. simpl. rewrite I4. congruence.
Qed.
End Ensemble.

(** The normalisation stage on three axes: it answers when the channel
    count fits or the input has no element, unless it is in training mode
    and sees one value per channel. *)
Lemma BatchNorm1d_forward_three (b : BatchNorm1d.t) (x : Tensor) (N C L : nat) :
  size x = [N; C; L] ->
  BatchNorm1d.training b = false \/ (N * L)%nat <> 1%nat ->
  C = Z.to_nat (BatchNorm1d.num_features b) \/ numel [N; C; L] = 0%nat ->
  exists y b', BatchNorm1d.forward b x = Ok (y, b') /\
               size y = size x /\
               (BatchNorm1d.training b = false -> b' = b).
Proof.
  intros Hx Hmode Hfit. unfold BatchNorm1d.forward. rewrite Hx.
  cbn [BatchNorm1d.view].
  destruct (BatchNorm1d.training b) eqn:Ht.
  - destruct Hmode as [Hf | HN]; [discriminate |].
    destruct (Nat.eqb_spec (N * L) 1); [contradiction |].
    destruct (Nat.eqb_spec (numel [N; C; L]) 0) as [Hz | Hnz].
    + eexists. eexists. split; [reflexivity |]. split; [exact Hx |].
      intros Hf; discriminate Hf.
    + destruct Hfit as [-> | Hz]; [| contradiction].
      rewrite Nat.eqb_refl. cbn [negb].
      eexists. eexists. split; [reflexivity |]. split; [reflexivity |].
      intros Hf; discriminate Hf.
  - destruct (Nat.eqb_spec (numel [N; C; L]) 0) as [Hz | Hnz].
    + eexists. eexists. split; [reflexivity |]. split; [exact Hx |].
      reflexivity.
    + destruct Hfit as [-> | Hz]; [| contradiction].
      rewrite Nat.eqb_refl. cbn [negb].
      eexists. eexists. split; [reflexivity |]. split; [reflexivity |].
      reflexivity.
Qed.

(** X11.  Only a one-dimensional input is promoted.  A three-dimensional
    input [(N, C, input_dim)] goes through layer 1 as it is and meets the
    normalisation stage, which reads [C] as the number of channels.  For an
    actor whose first layer has outputs ([hidden_in_dim >= 1]): on an input
    that is not empty ([N >= 1], [C >= 1]) the call fails unless [C] is
    [hidden_in_dim], and in evaluation mode the failure is a dimension
    mismatch; with [C = hidden_in_dim] an actor in evaluation mode returns
    a tensor of size [(N, C, output_dim)]; and an input without rows
    ([N = 0]) is passed through by the stage whatever [C] is, so the call
    returns a tensor of size [(0, C, output_dim)]. *)
Theorem Actor_forward_three_axes (a : Actor.t) (x : Tensor) (N C : nat) :
  Actor.wf a ->
  (0 < Linear.out_features (Actor.fc1 a))%Z ->
  size x = [N; C; Z.to_nat (Linear.in_features (Actor.fc1 a))] ->
  ((1 <= N)%nat -> (1 <= C)%nat ->
   C <> Z.to_nat (Linear.out_features (Actor.fc1 a)) ->
   (exists e, Actor.forward a x = Err e) /\
   (BatchNorm1d.training (Actor.bn a) = false ->
    Actor.forward a x = Err DimensionMismatch)) /\
  (C = Z.to_nat (Linear.out_features (Actor.fc1 a)) ->
   BatchNorm1d.training (Actor.bn a) = false ->
   exists y, Actor.forward a x = Ok (y, a) /\
             size y = [N; C; Z.to_nat (Linear.out_features (Actor.fc3 a))]) /\
  (N = 0%nat ->
   exists y a', Actor.forward a x = Ok (y, a') /\
                size y = [0%nat; C; Z.to_nat (Linear.out_features (Actor.fc3 a))] /\
                (BatchNorm1d.training (Actor.bn a) = false -> a' = a)).
Proof.
  intros (W1 & W2 & W3 & Wb & E1 & E2 & E3) P1 Hx.
  assert (Hp : promote x = x) by (unfold promote, dim; now rewrite Hx).
  destruct (Linear_forward_ok (Actor.fc1 a) x [N; C] W1 Hx) as (h1 & F1 & S1 & _).
  simpl in S1.
  assert (Hf : Actor.forward a x =
               ' (h2, bn') <- BatchNorm1d.forward (Actor.bn a) (relu h1) ;;
               h3 <- Linear.forward (Actor.fc2 a) h2 ;;
               h4 <- Linear.forward (Actor.fc3 a) (relu h3) ;;
               Ok (tanh_ h4, Actor.mk (Actor.fc1 a) (Actor.fc2 a) (Actor.fc3 a) bn')).
  { unfold Actor.forward. fold (promote x). rewrite Hp, F1. reflexivity. }
  assert (Hrest : forall h2 bn',
             BatchNorm1d.forward (Actor.bn a) (relu h1) = Ok (h2, bn') ->
             size h2 = size (relu h1) ->
             exists y, Actor.forward a x
                       = Ok (y, Actor.mk (Actor.fc1 a) (Actor.fc2 a) (Actor.fc3 a) bn') /\
                       size y = [N; C; Z.to_nat (Linear.out_features (Actor.fc3 a))]).
  { intros h2 bn' Fb Sb. rewrite relu_size, S1 in Sb.
    assert (S2 : size h2 = [N; C] ++ [Z.to_nat (Linear.in_features (Actor.fc2 a))])
      by (rewrite Sb, E2; reflexivity).
    destruct (Linear_forward_ok (Actor.fc2 a) h2 [N; C] W2 S2) as (h3 & F2 & S3 & _).
    rewrite <- E3, <- relu_size in S3.
    destruct (Linear_forward_ok (Actor.fc3 a) (relu h3) [N; C] W3 S3)
      as (h4 & F3 & S4 & _).
    exists (tanh_ h4). split; [| exact S4].
    rewrite Hf, Fb. cbn [bind]. rewrite F2. cbn [bind]. rewrite F3. reflexivity. }
  assert (Sr : size (relu h1) = [N; C; Z.to_nat (Linear.out_features (Actor.fc1 a))])
    by now rewrite relu_size.
  split; [| split].
  - intros HN HC HCne.
    assert (Hb : (C =? Z.to_nat (BatchNorm1d.num_features (Actor.bn a)))%nat = false)
      by (apply Nat.eqb_neq; now rewrite <- E1).
    assert (Hz : (numel [N; C; Z.to_nat (Linear.out_features (Actor.fc1 a))] =? 0)%nat
                 = false).
    { apply Nat.eqb_neq. simpl. nia. }
    split.
    + rewrite Hf. unfold BatchNorm1d.forward. rewrite Sr.
      cbn [BatchNorm1d.view]. rewrite Hz, Hb. cbn [negb].
      destruct (BatchNorm1d.training (Actor.bn a));
        [destruct (_ =? 1)%nat |]; eexists; reflexivity.
    + intros Ht. rewrite Hf. unfold BatchNorm1d.forward. rewrite Sr, Ht.
      cbn [BatchNorm1d.view]. rewrite Hz, Hb. reflexivity.
  - intros HC Ht.
    destruct (BatchNorm1d_forward_three (Actor.bn a) (relu h1) _ _ _ Sr)
      as (h2 & bn' & Fb & Sb & Hev);
      [left; exact Ht | left; now rewrite <- E1 |].
    rewrite (Hev Ht) in Fb.
    destruct (Hrest _ _ Fb Sb) as (y & Fy & Sy).
    exists y. split; [| exact Sy]. now rewrite Fy, Actor_eta.
  - intros HN. subst N.
    destruct (BatchNorm1d_forward_three (Actor.bn a) (relu h1) _ _ _ Sr)
      as (h2 & bn' & Fb & Sb & Hev);
      [right; simpl; lia | right; reflexivity |].
    destruct (Hrest _ _ Fb Sb) as (y & Fy & Sy).
    exists y. eexists. split; [exact Fy |]. split; [exact Sy |].
    intros Ht. rewrite (Hev Ht). apply Actor_eta.
Qed.

Lemma Actor_Critics_init_ok {RS : RandomSource}
      (n s a hi ho seed : Z) (g : Generator) :
  seed_in_range seed = true ->
  (0 <= s)%Z -> (0 <= a)%Z -> (0 < hi)%Z -> (0 < ho)%Z -> (0 <= (s + a) * n)%Z ->
  exists e g', Actor_Critics.init n s a hi ho seed g = Ok (e, g').
Proof.
  intros Hseed Hs Ha Hi Ho Hj. unfold Actor_Critics.init.
  destruct (Actor_init_ok s hi ho a seed g Hseed Hs Hi Ho Ha) as (al & g1 & E1).
  destruct (Actor_init_ok s hi ho a seed g1 Hseed Hs Hi Ho Ha) as (at_ & g2 & E2).
  destruct (Critic_init_ok ((s + a) * n) hi ho seed g2 Hseed Hj Hi Ho) as (cl & g3 & E3).
  destruct (Critic_init_ok ((s + a) * n) hi ho seed g3 Hseed Hj Hi Ho) as (ct & g4 & E4).
  rewrite E1. cbn [bind]. rewrite E2. cbn [bind].
  rewrite E3. cbn [bind]. rewrite E4. cbn [bind]. eauto.
Qed.

(** * The further properties at work on concrete networks

    The networks are again the constructors' own, with the generator
    [lcg]. *)

(** X1 on a concrete network. *)
Lemma reset_parameters_keeps_shapes_witness :
  exists a g' a' g'',
    @Actor.init lcg 2 2 2 1 0 7%Z = Ok (a, g') /\
    @Actor.reset_parameters lcg a g' = Ok (a', g'') /\
    same_sizes (Actor.fc1 a') (Actor.fc1 a) /\
    Actor.wf a' /\
    outcome (Actor.forward a' (mkTensor [3%nat] [1; 2; 3]))
    = outcome (Actor.forward a (mkTensor [3%nat] [1; 2; 3])).
Proof.
  destruct (@Actor_init_ok lcg 2 2 2 1 0 7%Z eq_refl) as (a & g' & Hi); try lia.
  pose proof (Actor_init_wf _ _ _ _ _ _ _ _ Hi) as (W & _ & O1 & O2 & _).
  destruct (@Actor_reset_ok lcg a g' W) as (a' & g'' & Hr);
    [rewrite O1; lia | rewrite O2; lia |].
  destruct (@reset_parameters_keeps_shapes lcg) as (HA & _).
  destruct (HA _ _ _ _ Hr) as (S1 & _ & _ & Hwf & Hout).
  exists a, g', a', g''.
  split; [exact Hi |]. split; [exact Hr |].
  split; [exact S1 |]. split; [exact (Hwf W) | apply Hout].
Defined.

(** X2 on a concrete network. *)
Lemma Actor_forward_frame_witness :
  exists a g' y a',
    @Actor.init lcg 2 2 2 1 0 7%Z = Ok (a, g') /\
    Actor.forward a (mkTensor [2%nat; 2%nat] [0.5; -0.5; 4; 8]) = Ok (y, a') /\
    Actor.fc1 a' = Actor.fc1 a /\ Actor.fc2 a' = Actor.fc2 a /\
    Actor.fc3 a' = Actor.fc3 a /\
    Actor.wf a' /\
    BatchNorm1d.num_batches_tracked (Actor.bn a')
    = (BatchNorm1d.num_batches_tracked (Actor.bn a) + 1)%Z /\
    dim y = 2%nat.
Proof.
  destruct (@Actor_init_ok lcg 2 2 2 1 0 7%Z eq_refl) as (a & g' & Hi); try lia.
  pose proof (Actor_init_wf _ _ _ _ _ _ _ _ Hi) as (W & I & _ & _ & _ & T).
  destruct (Actor_forward_stages a (mkTensor [2%nat; 2%nat] [0.5; -0.5; 4; 8]) 2 W)
    as (h1 & h2 & bn' & h3 & h4 & _ & _ & _ & _ & F & _);
    [rewrite I; reflexivity | right; discriminate |].
  destruct (Actor_forward_frame _ _ _ _ F)
    as (F1 & F2 & F3 & _ & Hwf & _ & Hn & Hr & _).
  exists a, g'. eexists. eexists.
  split; [exact Hi |]. split; [exact F |].
  split; [exact F1 |]. split; [exact F2 |]. split; [exact F3 |].
  split; [exact (Hwf W) |]. split; [exact (Hn T) | exact Hr].
Defined.

(** X3 on a concrete network. *)
Lemma Critic_forward_frame_witness :
  exists c g' y c',
    @Critic.init lcg 2 2 2 0 7%Z = Ok (c, g') /\
    Critic.forward c (mkTensor [2%nat; 1%nat] [0.5; 4])
                     (mkTensor [2%nat; 1%nat] [-0.5; 8]) = Ok (y, c') /\
    Critic.fc1 c' = Critic.fc1 c /\ Critic.fc2 c' = Critic.fc2 c /\
    Critic.fc3 c' = Critic.fc3 c /\
    Critic.wf c' /\
    BatchNorm1d.num_batches_tracked (Critic.bn c')
    = (BatchNorm1d.num_batches_tracked (Critic.bn c) + 1)%Z.
Proof.
  destruct (@Critic_init_ok lcg 2 2 2 0 7%Z eq_refl) as (c & g' & Hi); try lia.
  pose proof (Critic_init_wf _ _ _ _ _ _ _ Hi) as (W & I & T).
  destruct (Critic_forward_stages c (mkTensor [2%nat; 1%nat] [0.5; 4])
              (mkTensor [2%nat; 1%nat] [-0.5; 8]) 2 1 1 W eq_refl eq_refl)
    as (xs & h1 & h2 & bn' & h3 & y & _ & _ & _ & _ & _ & _ & _ & F & _);
    [rewrite I; reflexivity | right; discriminate |].
  destruct (Critic_forward_frame _ _ _ _ _ F) as (F1 & F2 & F3 & _ & Hwf & _ & Hn & _).
  exists c, g'. eexists. eexists.
  split; [exact Hi |]. split; [exact F |].
  split; [exact F1 |]. split; [exact F2 |]. split; [exact F3 |].
  split; [exact (Hwf W) | exact (Hn T)].
Defined.

(** X4 on a concrete network. *)
Lemma Actor_forward_eval_rowwise_witness :
  exists a g' y,
    @Actor.init lcg 2 2 2 1 0 7%Z = Ok (a, g') /\
    Actor.forward (Actor.train a false) (mkTensor [2%nat; 2%nat] [0.5; -0.5; 4; 8])
    = Ok (y, Actor.train a false) /\
    Actor.forward (Actor.train a false) (mkTensor [1%nat; 2%nat] [4; 8])
    = Ok (row_tensor y 1, Actor.train a false).
Proof.
  destruct (@Actor_init_ok lcg 2 2 2 1 0 7%Z eq_refl) as (a & g' & Hi); try lia.
  pose proof (Actor_init_wf _ _ _ _ _ _ _ _ Hi) as (W & I & _).
  destruct (Actor_forward_eval_rowwise (Actor.train a false)
              (mkTensor [2%nat; 2%nat] [0.5; -0.5; 4; 8]) 2
              (Actor_train_wf _ false W) eq_refl) as (y & F & Hrow);
    [simpl; rewrite I; reflexivity |].
  exists a, g', y. split; [exact Hi |]. split; [exact F |].
  exact (Hrow 1%nat ltac:(lia)).
Defined.

(** X5 on a concrete network. *)
Lemma Critic_forward_eval_rowwise_witness :
  exists c g' y,
    @Critic.init lcg 2 2 2 0 7%Z = Ok (c, g') /\
    Critic.forward (Critic.train c false) (mkTensor [2%nat; 1%nat] [0.5; 4])
                   (mkTensor [2%nat; 1%nat] [-0.5; 8])
    = Ok (y, Critic.train c false) /\
    Critic.forward (Critic.train c false) (mkTensor [1%nat; 1%nat] [4])
                   (mkTensor [1%nat; 1%nat] [8])
    = Ok (row_tensor y 1, Critic.train c false).
Proof.
  destruct (@Critic_init_ok lcg 2 2 2 0 7%Z eq_refl) as (c & g' & Hi); try lia.
  pose proof (Critic_init_wf _ _ _ _ _ _ _ Hi) as (W & I & _).
  destruct (Critic_forward_eval_rowwise (Critic.train c false)
              (mkTensor [2%nat; 1%nat] [0.5; 4])
              (mkTensor [2%nat; 1%nat] [-0.5; 8]) 2 1 1
              (Critic_train_wf _ false W) eq_refl eq_refl eq_refl
              eq_refl eq_refl) as (y & F & Hrow);
    [simpl; rewrite I; reflexivity |].
  exists c, g', y. split; [exact Hi |]. split; [exact F |].
  exact (Hrow 1%nat ltac:(lia)).
Defined.

(** X6 on a concrete network. *)
Lemma initial_weights_by_widths_witness :
  unit_draws lcg /\
  exists a g',
    @Actor.init lcg 5 4 9 1 0 7%Z = Ok (a, g') /\
    within (- (1 / sqrt 4)) (1 / sqrt 4) (Linear.weight (Actor.fc1 a)) /\
    within (- (1 / sqrt 9)) (1 / sqrt 9) (Linear.weight (Actor.fc2 a)) /\
    hidden_weights_within (-1) 1 a.
Proof.
  split; [exact lcg_unit_draws |].
  destruct (@Actor_init_ok lcg 5 4 9 1 0 7%Z eq_refl) as (a & g' & Hi); try lia.
  destruct (@initial_weights_by_widths lcg lcg_unit_draws) as (HA & _).
  destruct (HA _ _ _ _ _ _ _ _ Hi) as (R1 & R2 & _ & H1).
  exists a, g'.
  split; [exact Hi |]. split; [exact R1 |]. split; [exact R2 |].
  apply H1; lia.
Defined.


(** X8 on a concrete network. *)
Lemma Critic_is_Actor_without_tanh_witness :
  exists c g' y,
    @Critic.init lcg 2 2 2 0 7%Z = Ok (c, g') /\
    Critic.forward (Critic.train c false) (mkTensor [1%nat; 1%nat] [0.5])
                   (mkTensor [1%nat; 1%nat] [-0.5])
    = Ok (y, Critic.train c false) /\
    Actor.forward (as_actor (Critic.train c false)) (mkTensor [1%nat; 2%nat] [0.5; -0.5])
    = Ok (tanh_ y, as_actor (Critic.train c false)).
Proof.
  destruct (@Critic_init_ok lcg 2 2 2 0 7%Z eq_refl) as (c & g' & Hi); try lia.
  pose proof (Critic_init_wf _ _ _ _ _ _ _ Hi) as (W & I & _).
  destruct (@Critic_is_Actor_without_tanh lcg) as (_ & HF).
  pose proof (HF (Critic.train c false)
                 (mkTensor [1%nat; 1%nat] [0.5]) (mkTensor [1%nat; 1%nat] [-0.5])
                 (mkTensor [1%nat; 2%nat] [0.5; -0.5]) eq_refl
                 ltac:(discriminate)) as Ha.
  pose proof (Critic_forward_eval_data (Critic.train c false)
                (mkTensor [1%nat; 1%nat] [0.5]) (mkTensor [1%nat; 1%nat] [-0.5])
                1 1 1 (Critic_train_wf _ false W) eq_refl eq_refl eq_refl) as Hf.
  assert (Hw : (1 + 1)%nat
               = Z.to_nat (Linear.in_features (Critic.fc1 (Critic.train c false))))
    by (simpl; rewrite I; reflexivity).
  specialize (Hf Hw). rewrite Hf in Ha. cbn [bind] in Ha.
  exists c, g'. eexists.
  split; [exact Hi |]. split; [exact Hf | exact Ha].
Defined.

(** X9 on a concrete network. *)
Lemma ensemble_networks_fit_witness :
  exists e g' y a1 q c1,
    @Actor_Critics.init lcg 2 2 1 2 2 0 7%Z = Ok (e, g') /\
    Actor.forward (Actor_Critics.actor_local e)
                  (mkTensor [2%nat; 2%nat] [1; 2; 3; 4]) = Ok (y, a1) /\
    size y = [2%nat; 1%nat] /\
    Critic.forward (Actor_Critics.critic_local e)
                   (mkTensor [2%nat; 4%nat] [1; 2; 3; 4; 5; 6; 7; 8])
                   (mkTensor [2%nat; 2%nat] [1; 2; 3; 4]) = Ok (q, c1) /\
    size q = [2%nat; 1%nat].
Proof.
  destruct (@Actor_Critics_init_ok lcg 2 2 1 2 2 0 7%Z eq_refl) as (e & g' & Hi); try lia.
  destruct (@ensemble_networks_fit lcg 2 2 1 2 2 0 7%Z g' e 2
              ltac:(lia) ltac:(lia) ltac:(lia) Hi ltac:(discriminate))
    as (HA & HC).
  destruct (HA (mkTensor [2%nat; 2%nat] [1; 2; 3; 4]) eq_refl)
    as (y1 & a1 & _ & _ & F1 & _ & S1 & _).
  destruct (HC (mkTensor [2%nat; 4%nat] [1; 2; 3; 4; 5; 6; 7; 8])
               (mkTensor [2%nat; 2%nat] [1; 2; 3; 4]) eq_refl eq_refl)
    as (q1 & c1 & _ & _ & F2 & _ & S2 & _).
  exists e, g', y1, a1, q1, c1.
  split; [exact Hi |]. split; [exact F1 |]. split; [exact S1 |].
  split; [exact F2 | exact S2].
Defined.

(** X10 on a concrete network. *)
Lemma ensemble_critic_rejects_single_agent_witness :
  exists e g',
    @Actor_Critics.init lcg 2 2 1 2 2 0 7%Z = Ok (e, g') /\
    Critic.forward (Actor_Critics.critic_local e)
                   (mkTensor [2%nat; 2%nat] [1; 2; 3; 4])
                   (mkTensor [2%nat; 1%nat] [1; 2]) = Err DimensionMismatch.
Proof.
  destruct (@Actor_Critics_init_ok lcg 2 2 1 2 2 0 7%Z eq_refl) as (e & g' & Hi); try lia.
  exists e, g'. split; [exact Hi |].
  exact (proj1 (@ensemble_critic_rejects_single_agent lcg 2 2 1 2 2 0 7%Z g' e
                  (mkTensor [2%nat; 2%nat] [1; 2; 3; 4])
                  (mkTensor [2%nat; 1%nat] [1; 2]) 2
                  ltac:(lia) ltac:(lia) ltac:(lia) Hi eq_refl eq_refl)).
Defined.

(** X11 on a concrete network. *)
Lemma Actor_forward_three_axes_witness :
  exists a g' y,
    @Actor.init lcg 2 2 2 1 0 7%Z = Ok (a, g') /\
    Actor.forward (Actor.train a false)
                  (mkTensor [1%nat; 3%nat; 2%nat] [1; 2; 3; 4; 5; 6])
    = Err DimensionMismatch /\
    Actor.forward (Actor.train a false)
                  (mkTensor [1%nat; 2%nat; 2%nat] [1; 2; 3; 4])
    = Ok (y, Actor.train a false) /\
    size y = [1%nat; 2%nat; Z.to_nat 1] /\
    exists y0 a0,
      Actor.forward a (mkTensor [0%nat; 3%nat; 2%nat] []) = Ok (y0, a0) /\
      size y0 = [0%nat; 3%nat; Z.to_nat 1].
Proof.
  destruct (@Actor_init_ok lcg 2 2 2 1 0 7%Z eq_refl) as (a & g' & Hi); try lia.
  pose proof (Actor_init_wf _ _ _ _ _ _ _ _ Hi) as (W & I & O1 & _ & O3 & _).
  assert (P1 : (0 < Linear.out_features (Actor.fc1 (Actor.train a false)))%Z)
    by (simpl; rewrite O1; lia).
  destruct (Actor_forward_three_axes (Actor.train a false)
              (mkTensor [1%nat; 3%nat; 2%nat] [1; 2; 3; 4; 5; 6]) 1 3
              (Actor_train_wf _ false W) P1) as (Hbad & _);
    [simpl; rewrite I; reflexivity |].
  destruct (Actor_forward_three_axes (Actor.train a false)
              (mkTensor [1%nat; 2%nat; 2%nat] [1; 2; 3; 4]) 1 2
              (Actor_train_wf _ false W) P1) as (_ & Hgood & _);
    [simpl; rewrite I; reflexivity |].
  destruct Hbad as (_ & Hbad); [lia | lia | simpl; rewrite O1; discriminate |].
  destruct Hgood as (y & F & S); [simpl; rewrite O1; reflexivity | reflexivity |].
  simpl in S. rewrite O3 in S.
  assert (P0 : (0 < Linear.out_features (Actor.fc1 a))%Z) by (rewrite O1; lia).
  destruct (Actor_forward_three_axes a (mkTensor [0%nat; 3%nat; 2%nat] []) 0 3 W P0)
    as (_ & _ & Hempty); [simpl; rewrite I; reflexivity |].
  destruct (Hempty eq_refl) as (y0 & a0 & F0 & S0 & _).
  rewrite O3 in S0.
  exists a, g', y. split; [exact Hi |]. split; [exact (Hbad eq_refl) |].
  split; [exact F |]. split; [exact S |].
  exists y0, a0. split; [exact F0 | exact S0].
Defined.
